(** * AI Travel Planner (streamlit_app.py): a shallow embedding

    The development follows the source file top to bottom:
    - [PyStr]: Python text as a sequence of code points, with the three
      [str] methods the program calls ([strip], [split], [encode]);
    - [PyVal]: the dynamically typed values that the service clients hand
      back (decoded JSON), with subscripting, membership, iteration and
      truthiness as Python defines them, and exceptions as results;
    - [Tools]: the three [@tool] functions;
    - [App]: the session state, [clear_inputs] and the body of the
      "Generate Travel Plan" branch;
    - [AgentLoop]: the reasoning loop of the specification, section 4.4. *)

From Stdlib Require Import ZArith NArith List String Ascii Lia DecimalString.
From Equations Require Import Equations.
From stdpp Require Import gmap strings.
Import ListNotations.

Local Open Scope nat_scope.
Set Warnings "-register-all".

(* ===================================================================== *)
(** ** Python text *)
(* ===================================================================== *)

Module PyStr.

(** A Python [str] is a sequence of Unicode code points. *)
Definition pystr : Type := list N.

(** An ASCII literal of the source, as code points. *)
Definition lit (s : string) : pystr :=
  map N_of_ascii (list_ascii_of_string s).
Arguments lit s%_string : simpl never.

(** [str.isspace] on one code point (CPython's [_PyUnicode_IsWhitespace]):
    the characters [str.strip()] removes. *)
Definition is_space (c : N) : bool :=
  ((9 <=? c) && (c <=? 13) || (28 <=? c) && (c <=? 32)
   || (c =? 133) || (c =? 160) || (c =? 5760)
   || (8192 <=? c) && (c <=? 8202)
   || (c =? 8232) || (c =? 8233) || (c =? 8239) || (c =? 8287)
   || (c =? 12288))%N.

Fixpoint lstrip (s : pystr) : pystr :=
  match s with
  | c :: s' => if is_space c then lstrip s' else s
  | [] => []
  end.

Definition rstrip (s : pystr) : pystr := rev (lstrip (rev s)).

(** [s.strip()] *)
Definition strip (s : pystr) : pystr := rstrip (lstrip s).

(** [s.startswith(sep)] *)
Fixpoint starts_with (sep s : pystr) : bool :=
  match sep, s with
  | [], _ => true
  | _ :: _, [] => false
  | a :: sep', b :: s' => (a =? b)%N && starts_with sep' s'
  end.

(** [s.find(sep)]: the index of the leftmost occurrence, [None] for -1. *)
Fixpoint find (sep s : pystr) : option nat :=
  match s with
  | [] => if starts_with sep [] then Some 0 else None
  | _ :: s' =>
      if starts_with sep s then Some 0 else option_map S (find sep s')
  end.

(** [sep in s] for two strings. *)
Definition contains (sep s : pystr) : bool :=
  match find sep s with Some _ => true | None => false end.

Lemma starts_with_length sep s :
  starts_with sep s = true -> length sep <= length s.
Proof.
  revert s. induction sep as [|a sep IH]; intros [|b s]; simpl; try lia.
  intros H. apply andb_prop in H as [_ H]. apply IH in H. lia.
Qed.

Lemma find_bound sep s i :
  find sep s = Some i -> i + length sep <= length s.
Proof.
  revert i. induction s as [|b s IH]; intros i; simpl.
  - destruct sep; simpl; [|discriminate]. intros [= <-]. simpl. lia.
  - destruct (starts_with sep (b :: s)) eqn:E.
    + intros [= <-]. apply starts_with_length in E. simpl in *. lia.
    + destruct (find sep s) as [j|]; simpl; [|discriminate].
      intros [= <-]. specialize (IH j eq_refl). lia.
Qed.

(** [s.split(sep)] for the non-empty separator [c :: sep]: cut at the
    leftmost occurrence, drop the separator, go on with the rest. *)
Equations? split_ne (c : N) (sep s : pystr) : list pystr by wf (length s) lt :=
  split_ne c sep s with Logic.inspect (find (c :: sep) s) => {
    | exist _ None _ => [s]
    | exist _ (Some i) H =>
        firstn i s :: split_ne c sep (skipn (i + length (c :: sep)) s) }.
Proof.
  apply find_bound in H. simpl in *. rewrite length_skipn. lia.
Qed.

(** [sep.join(parts)] *)
Fixpoint join (sep : pystr) (parts : list pystr) : pystr :=
  match parts with
  | [] => []
  | [x] => x
  | x :: rest => x ++ sep ++ join sep rest
  end.

(** The number of positions of [s] at which [sep] occurs. *)
Fixpoint occurrences (sep s : pystr) : nat :=
  match s with
  | [] => 0
  | _ :: s' => (if starts_with sep s then 1 else 0) + occurrences sep s'
  end.

(** A text with no white space at either end. *)
Definition trimmed (t : pystr) : Prop :=
  (forall c t', t = c :: t' -> is_space c = false) /\
  (forall c t', t = t' ++ [c] -> is_space c = false).

Definition blank (t : pystr) : Prop := Forall (fun c => is_space c = true) t.

(** UTF-8, as [str.encode("utf-8")] produces it.  A lone surrogate
    (U+D800..U+DFFF) and anything above U+10FFFF has no encoding: Python
    raises [UnicodeEncodeError], here [None]. *)
Definition utf8_char (c : N) : option (list N) :=
  (if c <? 128 then Some [c]
   else if c <? 2048 then Some [192 + c / 64; 128 + c mod 64]
   else if (55296 <=? c) && (c <=? 57343) then None
   else if c <? 65536 then
     Some [224 + c / 4096; 128 + (c / 64) mod 64; 128 + c mod 64]
   else if c <? 1114112 then
     Some [240 + c / 262144; 128 + (c / 4096) mod 64;
           128 + (c / 64) mod 64; 128 + c mod 64]
   else None)%N.

Fixpoint encode_utf8 (s : pystr) : option (list N) :=
  match s with
  | [] => Some []
  | c :: s' =>
      match utf8_char c, encode_utf8 s' with
      | Some bs, Some rest => Some (bs ++ rest)
      | _, _ => None
      end
  end.

(** [str(n)] for an [int]. *)
Definition str_of_Z (z : Z) : pystr :=
  lit (DecimalString.NilZero.string_of_int (Z.to_int z)).

End PyStr.

(* ===================================================================== *)
(** ** Python values, exceptions and results *)
(* ===================================================================== *)

Module PyVal.
Import PyStr.

(** What [response.json()] and the search client return: decoded JSON.
    A [float] is the dyadic rational [m * 2^e] (every finite double is
    one); a [dict] keeps its entries in insertion order, keys distinct. *)
Inductive pyval : Type :=
| PNone
| PBool (b : bool)
| PInt (z : Z)
| PFloat (m e : Z)
| PStr (s : pystr)
| PList (items : list pyval)
| PDict (entries : list (pystr * pyval)).

Inductive exn : Type :=
| ValueError (msg : pystr)
| KeyError (key : pyval)
| IndexError
| TypeError
| AttributeError
| UnicodeEncodeError
| ServiceError (name : pystr).   (* raised inside a client library *)

Inductive outcome (A : Type) : Type :=
| Return (a : A)
| Raise (e : exn).
Arguments Return {A} a.
Arguments Raise {A} e.

(** [d.get(k)] on the entries of a [dict]. *)
Fixpoint dict_get (d : list (pystr * pyval)) (k : pystr) : option pyval :=
  match d with
  | [] => None
  | (k', v) :: d' => if decide (k' = k) then Some v else dict_get d' k
  end.

(** [l[i]] on a sequence: a negative index counts from the end. *)
Definition seq_index {A : Type} (l : list A) (i : Z) : option A :=
  let n := Z.of_nat (length l) in
  let j := (if i <? 0 then i + n else i)%Z in
  if ((0 <=? j) && (j <? n))%Z then nth_error l (Z.to_nat j) else None.

(** [v[k]] with a string key. *)
Definition getitem_str (v : pyval) (k : pystr) : outcome pyval :=
  match v with
  | PDict d =>
      match dict_get d k with
      | Some x => Return x
      | None => Raise (KeyError (PStr k))
      end
  | _ => Raise TypeError
  end.

(** [v[i]] with an integer index. *)
Definition getitem_int (v : pyval) (i : Z) : outcome pyval :=
  match v with
  | PDict _ => Raise (KeyError (PInt i))
  | PList l =>
      match seq_index l i with Some x => Return x | None => Raise IndexError end
  | PStr s =>
      match seq_index s i with
      | Some c => Return (PStr [c])
      | None => Raise IndexError
      end
  | _ => Raise TypeError
  end.

(** [bool(v)] *)
Definition truthy (v : pyval) : bool :=
  match v with
  | PNone => false
  | PBool b => b
  | PInt z => negb (z =? 0)%Z
  | PFloat m _ => negb (m =? 0)%Z
  | PStr [] | PList [] | PDict [] => false
  | PStr _ | PList _ | PDict _ => true
  end.

(** [bool(os.getenv(..))] *)
Definition configured (key : option pystr) : bool :=
  match key with
  | Some (_ :: _) => true
  | _ => false
  end.

(** [str(os.getenv(..))] *)
Definition str_of_env (key : option pystr) : pystr :=
  match key with
  | Some k => k
  | None => lit "None"
  end.

(** The elements [for x in v] runs through. *)
Definition py_iter (v : pyval) : outcome (list pyval) :=
  match v with
  | PList l => Return l
  | PDict d => Return (map (fun kv => PStr (fst kv)) d)
  | PStr s => Return (map (fun c => PStr [c]) s)
  | _ => Raise TypeError
  end.

(** [k in v] for a string [k]. *)
Definition py_in (k : pystr) (v : pyval) : outcome bool :=
  match v with
  | PDict d => Return (match dict_get d k with Some _ => true | None => false end)
  | PStr s => Return (contains k s)
  | PList l =>
      Return (existsb (fun x => match x with
                                | PStr s => bool_decide (s = k)
                                | _ => false
                                end) l)
  | _ => Raise TypeError
  end.

(** A computation that issues requests (logged in order) and may raise. *)
Definition M (E A : Type) : Type := list E -> outcome A * list E.

Definition ret {E A} (a : A) : M E A := fun log => (Return a, log).
Definition raise {E A} (e : exn) : M E A := fun log => (Raise e, log).
Definition lift {E A} (o : outcome A) : M E A := fun log => (o, log).
Definition emit {E} (ev : E) : M E unit := fun log => (Return tt, log ++ [ev]).
Definition bind {E A B} (m : M E A) (k : A -> M E B) : M E B :=
  fun log =>
    match m log with
    | (Return a, log') => k a log'
    | (Raise e, log') => (Raise e, log')
    end.
Definition run {E A} (m : M E A) : outcome A * list E := m [].

(** [for x in items: acc = body(x, acc)] *)
Fixpoint for_each {E A S} (items : list A) (acc : S) (body : A -> S -> M E S)
  : M E S :=
  match items with
  | [] => ret acc
  | x :: rest => bind (body x acc) (fun acc' => for_each rest acc' body)
  end.

End PyVal.

Declare Scope py_scope.
Delimit Scope py_scope with py.
Notation "'let*' x ':=' m 'in' k" :=
  (PyVal.bind m (fun x => k))
  (at level 10, x name, m at level 100, k at level 200) : py_scope.

(* ===================================================================== *)
(** ** The three tools *)
(* ===================================================================== *)

Module Tools.
Import PyStr PyVal.
Local Open Scope py_scope.

(** [load_dotenv()] and the three [os.getenv] calls. *)
Record environ : Type := {
  tavily_api_key : option pystr;
  open_weather_api_key : option pystr;
  google_api_key : option pystr
}.

(** The keyword arguments of [TavilySearch(...)]. *)
Record tavily_config : Type := {
  max_results : Z;
  topic : pystr;
  api_key : option pystr
}.

(** The object [requests.get] returns; the program only calls [.json()]. *)
Record http_response : Type := { json : outcome pyval }.

(** Requests that leave the process. *)
Inductive request : Type :=
| TavilyInvoke (cfg : tavily_config) (query : pystr)
| RequestsGet (url : pystr).

(** The names in [tools = [tavily_search, get_weather,
    get_hotel_recommendations]]. *)
Inductive tool : Type := Search | Weather | Hotel.

Definition tools : list tool := [Search; Weather; Hotel].

(** The keyword arguments of [AgentExecutor(...)]; the agent itself (the
    model and the prompt pulled from the hub) stays inside the library. *)
Record executor_config : Type := {
  executor_tools : list tool;
  verbose : bool;
  max_iterations : Z;
  max_execution_time : Z
}.

Definition agent_executor : executor_config :=
  {| executor_tools := tools; verbose := false;
     max_iterations := 15; max_execution_time := 120 |}.

(** Everything the program does not decide: what the remote services and
    the agent library answer, and how the interpreter prints a value that
    is not text. *)
Record world : Type := {
  tavily_answer : tavily_config -> pystr -> outcome pyval;
  requests_answer : pystr -> outcome http_response;
  agent_answer : executor_config -> pyval -> outcome pyval;
  str_of_float : Z -> Z -> pystr;
  str_of_container : pyval -> pystr;
  str_of_exn : exn -> pystr
}.

Section Adapters.
Variable env : environ.
Variable w : world.

(** [str(v)], as an f-string interpolates it. *)
Definition py_str (v : pyval) : pystr :=
  match v with
  | PStr s => s
  | PNone => lit "None"
  | PBool true => lit "True"
  | PBool false => lit "False"
  | PInt z => str_of_Z z
  | PFloat m e => str_of_float w m e
  | PList _ | PDict _ => str_of_container w v
  end.

(** [tool.invoke(query)] on a [TavilySearch] object. *)
Definition invoke (cfg : tavily_config) (query : pystr) : M request pyval :=
  fun log => (tavily_answer w cfg query, log ++ [TavilyInvoke cfg query]).

(** [requests.get(url)] *)
Definition requests_get (url : pystr) : M request http_response :=
  fun log => (requests_answer w url, log ++ [RequestsGet url]).

Definition TavilySearch : tavily_config :=
  {| max_results := 5; topic := lit "general"; api_key := tavily_api_key env |}.

Definition newline : pystr := [10%N].

Definition tavily_search (query : pystr) : M request pyval :=
  let tavily_tool := TavilySearch in
  let* response := invoke tavily_tool query in
  let combined_content : pystr := [] in
  let* results := lift (getitem_str response (lit "results")) in
  let* items := lift (py_iter results) in
  let* combined_content :=
    for_each items combined_content (fun result combined_content =>
      let* present := lift (py_in (lit "content") result) in
      let* cond :=
        if present
        then (let* c := lift (getitem_str result (lit "content")) in
              ret (truthy c))
        else ret false in
      if cond
      then (let* c := lift (getitem_str result (lit "content")) in
            ret (combined_content ++ py_str c ++ newline))
      else ret combined_content) in
  ret (PStr (strip combined_content)).

Definition key_not_set : pystr := lit "OpenWeather API key is not set.".

Definition weather_url (location key : pystr) : pystr :=
  lit "http://api.openweathermap.org/data/2.5/weather?q=" ++ location
  ++ lit "&appid=" ++ key ++ lit "&units=metric".

Definition weather_sentence (location : pystr) (temp description : pyval)
  : pystr :=
  lit "The current temperature in " ++ location ++ lit " is "
  ++ py_str temp ++ [176%N] ++ lit "C with " ++ py_str description ++ lit ".".

Definition get_weather (location : pystr) : M request pyval :=
  if negb (configured (open_weather_api_key env))
  then raise (ValueError key_not_set)
  else
    let url := weather_url location (str_of_env (open_weather_api_key env)) in
    let* response := requests_get url in
    let* data := lift (json response) in
    let* main := lift (getitem_str data (lit "main")) in
    let* temp := lift (getitem_str main (lit "temp")) in
    let* weather := lift (getitem_str data (lit "weather")) in
    let* first := lift (getitem_int weather 0) in
    let* description := lift (getitem_str first (lit "description")) in
    ret (PStr (weather_sentence location temp description)).

Definition hotel_query (location : pystr) : pystr :=
  lit "Best hotels in " ++ location.

Definition none_found : pystr := lit "No hotel recommendations found.".

Definition get_hotel_recommendations (location : pystr) : M request pyval :=
  let search_tool := TavilySearch in
  let* response := invoke search_tool (hotel_query location) in
  let* results := lift (getitem_str response (lit "results")) in
  if truthy results
  then (let* results := lift (getitem_str response (lit "results")) in
        let* first := lift (getitem_int results 0) in
        lift (getitem_str first (lit "content")))
  else ret (PStr none_found).

(** The function behind each name of [tools]. *)
Definition execute (t : tool) (input : pystr) : M request pyval :=
  match t with
  | Search => tavily_search input
  | Weather => get_weather input
  | Hotel => get_hotel_recommendations input
  end.

End Adapters.

End Tools.

(* ===================================================================== *)
(** ** The page: session state, the reset callback, the generate branch *)
(* ===================================================================== *)

Module App.
Import PyStr PyVal Tools.
Local Open Scope py_scope.

(** [st.session_state]: widget keys to values. *)
Abbreviation session_state := (gmap string pyval).

Definition city_input : string := "city_input".
Definition duration_input : string := "duration_input".
Definition interests_input : string := "interests_input".
Definition time_input : string := "time_input".

(** The keys of the four sidebar widgets. *)
Definition form_fields : list string :=
  [city_input; duration_input; interests_input; time_input].

(** [st.number_input("Duration (in days)", min_value=1, max_value=30, ..)] *)
Definition duration_min_value : Z := 1.
Definition duration_max_value : Z := 30.

(** [if key not in st.session_state: st.session_state.key = v] *)
Definition init_field (key : string) (v : pyval) (st : session_state)
  : session_state :=
  match st !! key with
  | Some _ => st
  | None => <[key := v]> st
  end.

Definition init_session_state (st : session_state) : session_state :=
  init_field time_input (PStr [])
    (init_field interests_input (PStr [])
       (init_field duration_input (PInt 1)
          (init_field city_input (PStr []) st))).

Definition clear_inputs (st : session_state) : session_state :=
  <[time_input := PStr []]>
    (<[interests_input := PStr []]>
       (<[duration_input := PInt 1]>
          (<[city_input := PStr []]> st))).

(** What one run of the script puts on the page or sends to the agent. *)
Inductive ui : Type :=
| StWarning (body : pystr)
| StSpinner (text : pystr)
| AgentInvoke (executor : executor_config) (input : pyval)
| StSuccess (body : pystr)
| StExpander (label : pystr) (expanded : bool) (written : pystr)
| StExpanderOpened (label : pystr) (expanded : bool)   (* nothing written *)
| StDownloadButton (label : pystr) (data : list N) (file_name mime : pystr)
| StError (body : pystr).

(** [try: body except Exception as e: handler(e)] *)
Definition try_except {E A} (body : M E A) (handler : exn -> M E A) : M E A :=
  fun log =>
    match body log with
    | (Raise e, log') => handler e log'
    | r => r
    end.

(** [enumerate(items, start)] *)
Fixpoint enumerate {A} (items : list A) (start : Z) : list (Z * A) :=
  match items with
  | [] => []
  | x :: rest => (start, x) :: enumerate rest (start + 1)
  end.

(** The literal the final text is split on. *)
Definition day_marker : pystr := lit "Day ".

(** [plan_text.split("Day ")] *)
Definition split_days (plan_text : pystr) : list pystr :=
  split_ne 68 (lit "ay ") plan_text.

(** The bodies the page shows, one per expander, in order:
    [day_plan.strip()] for [day_plan] in [days[1:]]. *)
Definition day_sections (plan_text : pystr) : list pystr :=
  map strip (tl (split_days plan_text)).

Definition check_mark : pystr := [9989%N].       (* U+2705 *)
Definition calendar : pystr := [128197%N].       (* U+1F4C5 *)
Definition inbox_tray : pystr := [128229%N].     (* U+1F4E5 *)
Definition cross_mark : pystr := [10060%N].      (* U+274C *)
Definition brain : pystr := [129504%N].          (* U+1F9E0 *)

Section Page.
Variable w : world.

Definition user_query (city duration interests time_of_year : pyval) : pystr :=
  lit "Plan a " ++ py_str w duration ++ lit "-day trip to " ++ py_str w city
  ++ lit " in " ++ py_str w time_of_year ++ lit ", focusing on "
  ++ py_str w interests ++ lit ". "
  ++ lit "Break the itinerary into daily activities in paragraph format. Include travel suggestions, sightseeing, food, and cultural experiences. "
  ++ lit "Also include climate information and typical temperature ranges for that time of year. "
  ++ lit "Present each day separately and clearly labeled (Day 1, Day 2, etc).".

(** [agent_executor.invoke({"input": user_query})] *)
Definition agent_invoke (input : pyval) : M ui pyval :=
  fun log => (agent_answer w agent_executor input,
              log ++ [AgentInvoke agent_executor input]).

(** [plan_text.split] exists only on a [str]. *)
Definition as_text (v : pyval) : outcome pystr :=
  match v with
  | PStr s => Return s
  | _ => Raise AttributeError
  end.

Definition show_day (entry : Z * pystr) : ui :=
  let '(i, day_plan) := entry in
  StExpander (calendar ++ lit " Day " ++ str_of_Z i) true
    (lit "**Day " ++ str_of_Z i ++ lit "**: " ++ strip day_plan).

(** What the loop over [enumerate(days[1:], start=1)] shows when every
    [st.write] goes through. *)
Definition shown_days (plan_text : pystr) : list ui :=
  map show_day (enumerate (tl (split_days plan_text)) 1).

(** One turn of the loop: [with st.expander(..): st.write(..)].  The
    expander is opened first; [st.write] sends its text to the browser as
    UTF-8, so a text that [encode] refuses (a lone surrogate) makes it
    raise [UnicodeEncodeError] with the expander left empty. *)
Definition write_day (entry : Z * pystr) : M ui unit :=
  let '(i, day_plan) := entry in
  match encode_utf8 (lit "**Day " ++ str_of_Z i ++ lit "**: " ++ strip day_plan) with
  | Some _ => emit (show_day entry)
  | None =>
      let* _ := emit (StExpanderOpened (calendar ++ lit " Day " ++ str_of_Z i) true) in
      raise UnicodeEncodeError
  end.

(** The loop [for i, day_plan in enumerate(days[1:], start=1)]. *)
Definition show_days (plan_text : pystr) : M ui unit :=
  for_each (enumerate (tl (split_days plan_text)) 1) tt
    (fun entry _ => write_day entry).

(** The text written into the [BytesIO] buffer before encoding. *)
Definition file_text (city : pyval) (plan_text : pystr) : pystr :=
  lit "AI Travel Plan for " ++ py_str w city ++ newline ++ newline ++ plan_text.

Definition file_name (city : pyval) : pystr :=
  py_str w city ++ lit "_travel_plan.txt".

Definition encode (text : pystr) : outcome (list N) :=
  match encode_utf8 text with
  | Some bytes => Return bytes
  | None => Raise UnicodeEncodeError
  end.

(** The body of [if submitted:].  The source also builds [input_text],
    which nothing reads. *)
Definition generate (city duration interests time_of_year : pyval) : M ui unit :=
  if negb (truthy city) || negb (truthy interests) || negb (truthy time_of_year)
  then emit (StWarning (lit "Please fill in all required fields."))
  else
    let query := user_query city duration interests time_of_year in
    let* _ := emit (StSpinner (brain ++ lit " Planning your personalized trip...")) in
    try_except
      (let* response := agent_invoke (PDict [(lit "input", PStr query)]) in
       let* output := lift (getitem_str response (lit "output")) in
       let* _ := emit (StSuccess (check_mark ++ lit " Here's your travel plan:")) in
       let* plan_text := lift (as_text output) in
       let* _ := show_days plan_text in
       let* plan_bytes := lift (encode (file_text city plan_text)) in
       emit (StDownloadButton (inbox_tray ++ lit " Download Travel Plan")
               plan_bytes (file_name city) (lit "text/plain")))
      (fun e => emit (StError (cross_mark ++ lit " Something went wrong: "
                               ++ str_of_exn w e))).

(** [st.session_state.<key>]: reading an attribute that was never set
    raises. *)
Definition getattr (st : session_state) (key : string) : outcome pyval :=
  match st !! key with
  | Some v => Return v
  | None => Raise AttributeError
  end.

(** The part of a rerun that this file's own statements decide, on a
    session state the sidebar widgets have accepted: the defaults (lines
    106 to 113), the four reads after the sidebar (135 to 138) and the
    generate branch when the button was pressed (142 to 188).  The
    module-level set-up (lines 22 to 90: the environment, the model, the
    prompt pulled from the hub, the executor) and the widget calls (123 to
    132) are library calls that run before, outside any [try], and can
    raise; they are not part of this definition, which says nothing of a
    rerun in which one of them raises. *)
Definition script (st : session_state) (submitted : bool) : M ui unit :=
  let st := init_session_state st in
  let* city := lift (getattr st city_input) in
  let* duration := lift (getattr st duration_input) in
  let* interests := lift (getattr st interests_input) in
  let* time_of_year := lift (getattr st time_input) in
  if submitted
  then generate city duration interests time_of_year
  else ret tt.

End Page.

End App.

(* ===================================================================== *)
(** ** The reasoning loop *)
(* ===================================================================== *)

Module AgentLoop.
Import PyStr PyVal Tools.

(** Modelled from the spec: the Action of section 3, what the reasoning
    engine's reply parses to.  The agent library that produces and consumes
    it is not part of the repository. *)
Inductive Action : Type :=
| Invoke (tool_name tool_input : pystr)
| Finish (output_text : pystr).

(** Modelled from the spec: the states of the Agent Loop (section 4.4),
    which lives in the agent library, outside the repository. *)
Inductive state : Type :=
| Thinking
| Dispatching (tool_name tool_input : pystr)
| Done (output_text : pystr)
| Aborted (reason : pystr).

(** Modelled from the spec: one entry of the Scratchpad (section 3) kept by
    the agent library's loop: a tool call with its observation, or the hint
    appended after a reply that did not parse. *)
Inductive entry : Type :=
| Observed (tool_name tool_input observation : pystr)
| ErrorHint.

(** Modelled from the spec: the collaborators of one run of the agent
    library's loop (sections 4.2 to 4.4): the reasoning engine client on the
    scratchpad ([None] for a reply that does not parse), the registry, and
    the wall clock: [clock n] is the time since the start, in seconds, once
    [n] reasoning calls have returned, which is what the check before call
    number [n] reads. *)
Record collaborators : Type := {
  engine : list entry -> option Action;
  registry : pystr -> option (pystr -> pystr);
  clock : nat -> Z
}.

(** Modelled from the spec: the state of one run of the agent library's
    loop (section 4.4), with the clock readings of its reasoning calls. *)
Record machine : Type := {
  phase : state;
  scratchpad : list entry;
  iterations : nat;        (* reasoning calls made so far *)
  retries : nat;           (* replies that did not parse *)
  called_at : list Z       (* clock reading at each reasoning call *)
}.

Definition initial : machine :=
  {| phase := Thinking; scratchpad := []; iterations := 0; retries := 0;
     called_at := [] |}.


Section Loop.
Variable cfg : executor_config.     (* the two global bounds *)
Variable retry_limit : nat.         (* the self-correction budget *)
Variable c : collaborators.

Definition iteration_cap : nat := Z.to_nat (max_iterations cfg).
Definition time_cap : Z := max_execution_time cfg.

Definition over_budget (m : machine) : bool :=
  (iteration_cap <=? iterations m) || (time_cap <=? clock c (iterations m))%Z.

Definition with_phase (s : state) (m : machine) : machine :=
  {| phase := s; scratchpad := scratchpad m; iterations := iterations m;
     retries := retries m; called_at := called_at m |}.

(** The bookkeeping of one reasoning call. *)
Definition reasoned (m : machine) : machine :=
  {| phase := phase m; scratchpad := scratchpad m;
     iterations := S (iterations m); retries := retries m;
     called_at := called_at m ++ [clock c (iterations m)] |}.

Definition tool_not_found : pystr := lit "tool not found".

(** Modelled from the spec: the Agent Loop of section 4.4, one transition
    at a time.  The loop the program runs is the agent library's
    [AgentExecutor], which is not part of the repository; the source only
    passes it [max_iterations=15] and [max_execution_time=120].  Section 4.4
    compares the retry counter with a budget that sections 8 and 9 call the
    configured retry limit: it is the parameter [retry_limit] here. *)
Definition step (m : machine) : machine :=
  match phase m with
  | Thinking =>
      if over_budget m
      then with_phase (Aborted (lit "iteration or time limit")) m
      else
        let m' := reasoned m in
        match engine c (scratchpad m) with
        | Some (Finish output_text) => with_phase (Done output_text) m'
        | Some (Invoke tool_name tool_input) =>
            with_phase (Dispatching tool_name tool_input) m'
        | None =>
            if S (retries m) <? retry_limit
            then {| phase := Thinking;
                    scratchpad := scratchpad m ++ [ErrorHint];
                    iterations := iterations m';
                    retries := S (retries m);
                    called_at := called_at m' |}
            else with_phase (Aborted (lit "reply did not parse")) m'
        end
  | Dispatching tool_name tool_input =>
      let observation :=
        match registry c tool_name with
        | Some adapter => adapter tool_input
        | None => tool_not_found
        end in
      {| phase := Thinking;
         scratchpad := scratchpad m ++ [Observed tool_name tool_input observation];
         iterations := iterations m;
         retries := retries m;
         called_at := called_at m |}
  | Done _ | Aborted _ => m
  end.

(** The machine after [n] transitions from the initial state. *)
Definition after (n : nat) : machine := Nat.iter n step initial.

End Loop.

End AgentLoop.

(* ===================================================================== *)
(** ** Facts about text *)
(* ===================================================================== *)

Module PyStrFacts.
Import PyStr.

Lemma split_ne_unfold c sep s :
  split_ne c sep s =
  match find (c :: sep) s with
  | None => [s]
  | Some i => firstn i s :: split_ne c sep (skipn (i + length (c :: sep)) s)
  end.
Proof.
  funelim (split_ne c sep s);
    match goal with E : find _ _ = _ |- _ => rewrite E end; reflexivity.
Qed.

Lemma starts_with_app sep s :
  starts_with sep s = true -> s = sep ++ skipn (length sep) s.
Proof.
  revert s. induction sep as [|a sep IH]; intros [|b s]; simpl;
    try reflexivity; try discriminate.
  intros H. apply andb_prop in H as [Hab H].
  apply N.eqb_eq in Hab. subst b. f_equal. apply IH, H.
Qed.

Lemma find_Some_split sep s i :
  find sep s = Some i ->
  s = firstn i s ++ sep ++ skipn (i + length sep) s.
Proof.
  revert i. induction s as [|b s IH]; intros i; simpl.
  - destruct sep; simpl; [|discriminate]. intros [= <-]. reflexivity.
  - destruct (starts_with sep (b :: s)) eqn:E.
    + intros [= <-]. simpl. apply starts_with_app in E. exact E.
    + destruct (find sep s) as [j|]; simpl; [|discriminate].
      intros [= <-]. simpl. f_equal. apply IH. reflexivity.
Qed.

Lemma split_ne_cons c sep s :
  exists first rest, split_ne c sep s = first :: rest.
Proof.
  rewrite split_ne_unfold. destruct (find (c :: sep) s); eauto.
Qed.

(** Splitting loses nothing: joining the pieces with the separator gives
    the text back. *)
Lemma join_split c sep s : join (c :: sep) (split_ne c sep s) = s.
Proof.
  funelim (split_ne c sep s); [|reflexivity].
  match goal with IH : join _ _ = _ |- _ => revert IH end.
  destruct (split_ne_cons c sep (skipn (i + length (c :: sep)) s))
    as (first & rest & ->).
  intros IH. change (firstn i s ++ (c :: sep) ++ join (c :: sep) (first :: rest) = s).
  rewrite IH. symmetry. now apply find_Some_split.
Qed.

Lemma find_None_occurrences sep s :
  find sep s = None -> occurrences sep s = 0.
Proof.
  induction s as [|b s IH]; simpl; [reflexivity|].
  destruct (starts_with sep (b :: s)); [discriminate|].
  destruct (find sep s); [discriminate|]. intros _. now rewrite IH.
Qed.

Lemma occurrences_0_find c sep s :
  occurrences (c :: sep) s = 0 -> find (c :: sep) s = None.
Proof.
  induction s as [|b s IH]; [reflexivity|].
  cbn [occurrences find].
  destruct (starts_with (c :: sep) (b :: s)); [discriminate|].
  intros H. rewrite IH by exact H. reflexivity.
Qed.

Lemma starts_with_firstn sep n s :
  starts_with sep (firstn n s) = true -> starts_with sep s = true.
Proof.
  revert n s. induction sep as [|a sep IH]; intros n s; [reflexivity|].
  destruct n, s; simpl; try discriminate.
  intros H. apply andb_prop in H as [-> H]. simpl. eapply IH, H.
Qed.

(** Nothing before the leftmost occurrence contains the separator. *)
Lemma find_firstn_None c sep s i :
  find (c :: sep) s = Some i -> find (c :: sep) (firstn i s) = None.
Proof.
  revert i. induction s as [|b s IH]; intros i; [discriminate|].
  cbn [find].
  destruct (starts_with (c :: sep) (b :: s)) eqn:E.
  - intros [= <-]. reflexivity.
  - destruct (find (c :: sep) s) as [j|]; simpl; [|discriminate].
    intros [= <-]. cbn [firstn find].
    destruct (starts_with (c :: sep) (b :: firstn j s)) eqn:E'.
    + apply (starts_with_firstn _ (S j) (b :: s)) in E'. congruence.
    + rewrite (IH j eq_refl). reflexivity.
Qed.

(** ** White space *)

Lemma lstrip_spec s :
  exists l, s = l ++ lstrip s /\ blank l /\
            forall c t, lstrip s = c :: t -> is_space c = false.
Proof.
  induction s as [|c s (l & Hs & Hl & Hhd)]; simpl.
  - exists []. repeat split; [constructor | discriminate].
  - destruct (is_space c) eqn:E.
    + exists (c :: l). repeat split.
      * simpl. now f_equal.
      * now constructor.
      * exact Hhd.
    + exists []. repeat split; [constructor|].
      intros c' t [= <- <-]. exact E.
Qed.

Lemma rstrip_spec s :
  exists r, s = rstrip s ++ r /\ blank r /\
            forall c t, rstrip s = t ++ [c] -> is_space c = false.
Proof.
  unfold rstrip. destruct (lstrip_spec (rev s)) as (l & Hs & Hl & Hhd).
  exists (rev l). repeat split.
  - rewrite <- rev_app_distr, <- Hs. now rewrite rev_involutive.
  - apply List.Forall_rev, Hl.
  - intros c t Ht. apply (f_equal (@rev N)) in Ht.
    rewrite rev_involutive, rev_app_distr in Ht. simpl in Ht.
    eapply Hhd, Ht.
Qed.

(** [strip] removes white space, and only white space, from both ends. *)
Lemma strip_spec s :
  exists l r, s = l ++ strip s ++ r /\ blank l /\ blank r /\ trimmed (strip s).
Proof.
  unfold strip.
  destruct (lstrip_spec s) as (l & Hs & Hl & Hhd).
  destruct (rstrip_spec (lstrip s)) as (r & Hr & Hbr & Hlast).
  exists l, r. repeat split; try assumption.
  - now rewrite <- Hr.
  - intros c t Ht.
    destruct (lstrip s) as [|c0 t0] eqn:E.
    + unfold rstrip in Ht. simpl in Ht. discriminate.
    + rewrite Ht in Hr. simpl in Hr. injection Hr as -> _.
      eapply Hhd. reflexivity.
Qed.

End PyStrFacts.

(* ===================================================================== *)
(** ** Splitting the plan into days *)
(* ===================================================================== *)

Module DayFacts.
Import PyStr PyVal Tools App PyStrFacts.

(** The marker cannot overlap itself: an occurrence at the head of [s]
    rules out occurrences at the next three positions. *)
Lemma day_marker_head s :
  starts_with day_marker s = true ->
  occurrences day_marker s = S (occurrences day_marker (skipn 4 s)).
Proof.
  change day_marker with [68%N; 97%N; 121%N; 32%N].
  destruct s as [|a [|b [|c [|d r]]]]; cbn [starts_with];
    rewrite ?andb_false_r; try discriminate.
  intros H.
  repeat (apply andb_prop in H as [?%N.eqb_eq H]). subst. reflexivity.
Qed.

Lemma day_marker_find s i :
  find day_marker s = Some i ->
  occurrences day_marker s = S (occurrences day_marker (skipn (i + 4) s)).
Proof.
  revert i. induction s as [|b s IH]; intros i; [discriminate|].
  cbn [find].
  destruct (starts_with day_marker (b :: s)) eqn:E.
  - intros [= <-]. exact (day_marker_head _ E).
  - destruct (find day_marker s) as [j|]; cbn [option_map]; [|discriminate].
    intros [= <-]. change (skipn (S j + 4) (b :: s)) with (skipn (j + 4) s).
    rewrite <- (IH j eq_refl).
    change (occurrences day_marker (b :: s))
      with ((if starts_with day_marker (b :: s) then 1 else 0)
            + occurrences day_marker s).
    now rewrite E.
Qed.

Lemma split_days_unfold s :
  split_days s =
  match find day_marker s with
  | None => [s]
  | Some i => firstn i s :: split_days (skipn (i + 4) s)
  end.
Proof.
  unfold split_days. rewrite split_ne_unfold at 1.
  change (find (68%N :: lit "ay ") s) with (find day_marker s).
  destruct (find day_marker s); reflexivity.
Qed.

(** One piece more than there are markers; no piece contains a marker;
    the pieces joined by the marker are the text. *)
Lemma split_days_spec s :
  length (split_days s) = S (occurrences day_marker s) /\
  Forall (fun piece => occurrences day_marker piece = 0) (split_days s) /\
  join day_marker (split_days s) = s.
Proof.
  split; [|split].
  - remember (length s) as n eqn:Hn. revert s Hn.
    induction n as [n IH] using lt_wf_ind. intros s ->.
    rewrite split_days_unfold. destruct (find day_marker s) as [i|] eqn:E.
    + cbn [length]. rewrite (day_marker_find _ _ E). f_equal.
      apply (IH (length (skipn (i + 4) s))); [|reflexivity].
      apply find_bound in E. rewrite length_skipn.
        change (length day_marker) with 4 in E. lia.
    + now rewrite find_None_occurrences.
  - remember (length s) as n eqn:Hn. revert s Hn.
    induction n as [n IH] using lt_wf_ind. intros s ->.
    rewrite split_days_unfold. destruct (find day_marker s) as [i|] eqn:E.
    + constructor.
      * apply find_None_occurrences. now apply find_firstn_None.
      * apply (IH (length (skipn (i + 4) s))); [|reflexivity].
        apply find_bound in E. rewrite length_skipn.
        change (length day_marker) with 4 in E. lia.
    + constructor; [|constructor]. now apply find_None_occurrences.
  - apply join_split.
Qed.



Definition three_day_plan : pystr :=
  lit "Welcome. Day 1: fort  Day 2: lake Day 3: market ".

(** C3, as the code has it. A final text with no day marker is shown as no
    section at all: the only piece of the split is the one before the first
    marker, which the loop over [days[1:]] skips. *)
Theorem no_marker_no_section text :
  occurrences day_marker text = 0 ->
  split_days text = [text] /\ day_sections text = [] /\ shown_days text = [].
Proof.
  intros H0. unfold day_sections, shown_days.
  rewrite split_days_unfold.
  pose proof (occurrences_0_find 68%N (lit "ay ") text H0) as E.
  change (find day_marker text = None) in E. rewrite E. repeat split.
Qed.

Definition unlabelled_plan : pystr := lit "  Enjoy Kolhapur in August. ".

Lemma no_marker_no_section_witness :
  split_days unlabelled_plan = [unlabelled_plan] /\
  day_sections unlabelled_plan = [] /\ shown_days unlabelled_plan = [].
Proof. apply (no_marker_no_section unlabelled_plan). reflexivity. Defined.

(** C3, as stated, fails on this text: it has no marker and a non-empty
    stripped form, and the page shows no section for it. *)
Lemma no_marker_single_section_fails :
  occurrences day_marker unlabelled_plan = 0 /\
  strip unlabelled_plan = lit "Enjoy Kolhapur in August." /\
  day_sections unlabelled_plan = [] /\
  length (day_sections unlabelled_plan) = 0.
Proof. repeat split. Qed.

End DayFacts.

(* ===================================================================== *)
(** ** The tools against failing and incomplete services *)
(* ===================================================================== *)

Module ToolFacts.
Import PyStr PyVal Tools.

(** *** Sample surroundings *)

Definition all_keys : environ :=
  {| tavily_api_key := Some (lit "tvly-demo");
     open_weather_api_key := Some (lit "ow-demo");
     google_api_key := Some (lit "g-demo") |}.

Definition no_weather_key : environ :=
  {| tavily_api_key := Some (lit "tvly-demo");
     open_weather_api_key := None;
     google_api_key := Some (lit "g-demo") |}.

Definition connection_error : exn := ServiceError (lit "ConnectionError").

(** Every service is unreachable. *)
Definition offline : world :=
  {| tavily_answer := fun _ _ => Raise connection_error;
     requests_answer := fun _ => Raise connection_error;
     agent_answer := fun _ _ => Raise connection_error;
     str_of_float := fun m e => str_of_Z m ++ lit "*2**" ++ str_of_Z e;
     str_of_container := fun _ => lit "<container>";
     str_of_exn := fun _ => lit "<exception>" |}.

(** The search service answers [search], the weather service [weather],
    the agent [plan], whatever they are asked. *)
Definition answering (search weather plan : pyval) : world :=
  {| tavily_answer := fun _ _ => Return search;
     requests_answer := fun _ => Return {| json := Return weather |};
     agent_answer := fun _ _ => Return plan;
     str_of_float := str_of_float offline;
     str_of_container := str_of_container offline;
     str_of_exn := str_of_exn offline |}.

Definition no_results : pyval := PDict [(lit "results", PList [])].

Definition two_hotels : pyval :=
  PDict [(lit "query", PStr (lit "Best hotels in Kolhapur"));
         (lit "results",
          PList [PDict [(lit "title", PStr (lit "Stay"));
                        (lit "content", PStr (lit "Hotel Sayaji, near the lake."))];
                 PDict [(lit "content", PStr (lit "Hotel Pearl."))]])].

(** A weather answer without the temperature. *)
Definition no_temperature : pyval :=
  PDict [(lit "main", PDict [(lit "humidity", PInt 60)]);
         (lit "weather", PList [PDict [(lit "description", PStr (lit "clear sky"))]])].

Definition paris_weather : pyval :=
  PDict [(lit "weather", PList [PDict [(lit "description", PStr (lit "clear sky"))]]);
         (lit "main", PDict [(lit "temp", PInt 21)])].

(** Unfold one monadic step at a time. *)
Ltac step_m :=
  unfold run, bind, lift, ret, raise, invoke, requests_get in *; cbn beta iota.

Lemma seq_index_head {A} (x : A) (l : list A) : seq_index (x :: l) 0 = Some x.
Proof.
  unfold seq_index. cbn [Z.ltb Z.compare Z.leb andb length].
  destruct (Z.ltb_spec 0 (Z.of_nat (S (length l)))); [reflexivity | lia].
Qed.

Lemma seq_index_nil {A} (i : Z) : seq_index (@nil A) i = None.
Proof.
  unfold seq_index. cbn zeta. destruct (_ && _); [|reflexivity].
  now destruct (Z.to_nat _).
Qed.

(** What can go wrong upstream of a tool: the client library raises, or
    the answer lacks the entry the tool reads first. *)
Inductive upstream_failure (env : environ) (w : world)
  : tool -> pystr -> exn -> Prop :=
| search_raises query e :
    tavily_answer w (TavilySearch env) query = Raise e ->
    upstream_failure env w Search query e
| search_malformed query d :
    tavily_answer w (TavilySearch env) query = Return (PDict d) ->
    dict_get d (lit "results") = None ->
    upstream_failure env w Search query (KeyError (PStr (lit "results")))
| hotel_raises location e :
    tavily_answer w (TavilySearch env) (hotel_query location) = Raise e ->
    upstream_failure env w Hotel location e
| hotel_malformed location d :
    tavily_answer w (TavilySearch env) (hotel_query location) = Return (PDict d) ->
    dict_get d (lit "results") = None ->
    upstream_failure env w Hotel location (KeyError (PStr (lit "results")))
| weather_raises location e :
    configured (open_weather_api_key env) = true ->
    requests_answer w
      (weather_url location (str_of_env (open_weather_api_key env))) = Raise e ->
    upstream_failure env w Weather location e
| weather_malformed location response e :
    configured (open_weather_api_key env) = true ->
    requests_answer w
      (weather_url location (str_of_env (open_weather_api_key env)))
    = Return response ->
    json response = Raise e ->
    upstream_failure env w Weather location e.

(** C1, as the code has it. No tool catches anything: when the service
    client raises, or the answer cannot be read, the exception leaves the
    tool unchanged and no string is returned. *)
Theorem upstream_failure_propagates env w t input e :
  upstream_failure env w t input e ->
  fst (run (execute env w t input)) = Raise e.
Proof.
  intros [q e' H | q d H Hd | l e' H | l d H Hd | l e' Hk H | l r e' Hk H Hj];
    cbn [execute]; unfold tavily_search, get_hotel_recommendations, get_weather;
    rewrite ?Hk; step_m; rewrite H; cbn; rewrite ?Hd, ?Hj; reflexivity.
Qed.


Lemma upstream_failure_propagates_witness :
  fst (run (execute all_keys offline Search (lit "restaurants in Kolhapur")))
  = Raise connection_error.
Proof.
  apply (upstream_failure_propagates all_keys offline Search
           (lit "restaurants in Kolhapur") connection_error).
  apply search_raises. reflexivity.
Defined.

(** C1, as stated, fails for the search tool against a network that is
    down: the client's exception comes out of the tool, and no text. *)
Lemma search_on_failing_network :
  tavily_answer offline (TavilySearch all_keys) (lit "restaurants in Kolhapur")
  = Raise connection_error /\
  run (tavily_search all_keys offline (lit "restaurants in Kolhapur"))
  = (Raise connection_error,
     [TavilyInvoke (TavilySearch all_keys) (lit "restaurants in Kolhapur")]).
Proof. split; reflexivity. Qed.

(** *** The weather tool *)

(** The entries the weather tool reads, in the order it reads them, and
    the error the first missing one raises. *)
Inductive incomplete : pyval -> exn -> Prop :=
| no_main d :
    dict_get d (lit "main") = None ->
    incomplete (PDict d) (KeyError (PStr (lit "main")))
| no_temp d m :
    dict_get d (lit "main") = Some (PDict m) ->
    dict_get m (lit "temp") = None ->
    incomplete (PDict d) (KeyError (PStr (lit "temp")))
| no_weather d m temp :
    dict_get d (lit "main") = Some (PDict m) ->
    dict_get m (lit "temp") = Some temp ->
    dict_get d (lit "weather") = None ->
    incomplete (PDict d) (KeyError (PStr (lit "weather")))
| no_first d m temp :
    dict_get d (lit "main") = Some (PDict m) ->
    dict_get m (lit "temp") = Some temp ->
    dict_get d (lit "weather") = Some (PList []) ->
    incomplete (PDict d) IndexError
| no_description d m temp f rest :
    dict_get d (lit "main") = Some (PDict m) ->
    dict_get m (lit "temp") = Some temp ->
    dict_get d (lit "weather") = Some (PList (PDict f :: rest)) ->
    dict_get f (lit "description") = None ->
    incomplete (PDict d) (KeyError (PStr (lit "description"))).

(** C4, as the code has it. With the key set, an answer that lacks one of
    the entries the tool reads makes the tool raise the lookup error of the
    first missing entry, after its one request; it returns no text. *)
Theorem weather_incomplete_raises env w location response data e :
  configured (open_weather_api_key env) = true ->
  requests_answer w
    (weather_url location (str_of_env (open_weather_api_key env)))
  = Return response ->
  json response = Return data ->
  incomplete data e ->
  run (get_weather env w location)
  = (Raise e,
     [RequestsGet (weather_url location (str_of_env (open_weather_api_key env)))]).
Proof.
  intros Hk Hget Hjson Hinc. unfold get_weather. rewrite Hk. step_m.
  rewrite Hget, Hjson.
  destruct Hinc as [d H1 | d m H1 H2 | d m t H1 H2 H3 | d m t H1 H2 H3
                   | d m t f rest H1 H2 H3 H4];
    cbn; rewrite H1; cbn; rewrite ?H2; cbn; rewrite ?H3; cbn;
    rewrite ?seq_index_head; cbn; rewrite ?H4; reflexivity.
Qed.

Lemma weather_incomplete_raises_witness :
  run (get_weather all_keys (answering no_results no_temperature PNone) (lit "Paris"))
  = (Raise (KeyError (PStr (lit "temp"))),
     [RequestsGet (weather_url (lit "Paris") (lit "ow-demo"))]).
Proof.
  apply (weather_incomplete_raises all_keys
           (answering no_results no_temperature PNone) (lit "Paris")
           {| json := Return no_temperature |} no_temperature
           (KeyError (PStr (lit "temp"))));
    try reflexivity.
  apply (no_temp _ [(lit "humidity", PInt 60)]); reflexivity.
Defined.

(** C4, as stated, fails on a stubbed answer for Paris that lacks the
    temperature: the tool raises [KeyError('temp')]. *)
Lemma weather_without_temperature :
  dict_get [(lit "humidity", PInt 60)] (lit "temp") = None /\
  run (get_weather all_keys (answering no_results no_temperature PNone) (lit "Paris"))
  = (Raise (KeyError (PStr (lit "temp"))),
     [RequestsGet (weather_url (lit "Paris") (lit "ow-demo"))]).
Proof. split; reflexivity. Qed.

(** With both entries present the tool returns its sentence. *)
Lemma weather_complete env w location response d m temp f rest description :
  configured (open_weather_api_key env) = true ->
  requests_answer w
    (weather_url location (str_of_env (open_weather_api_key env)))
  = Return response ->
  json response = Return (PDict d) ->
  dict_get d (lit "main") = Some (PDict m) ->
  dict_get m (lit "temp") = Some temp ->
  dict_get d (lit "weather") = Some (PList (PDict f :: rest)) ->
  dict_get f (lit "description") = Some description ->
  fst (run (get_weather env w location))
  = Return (PStr (weather_sentence w location temp description)).
Proof.
  intros Hk Hget Hjson H1 H2 H3 H4. unfold get_weather. rewrite Hk. step_m.
  rewrite Hget, Hjson. cbn. rewrite H1. cbn. rewrite H2, H3. cbn.
  rewrite seq_index_head. cbn. rewrite H4. reflexivity.
Qed.

(** C6. Without a weather key (unset or empty) the weather tool raises
    [ValueError("OpenWeather API key is not set.")] for every location,
    before any request: a raised error, not a returned value. *)
Theorem weather_requires_key env w location :
  configured (open_weather_api_key env) = false ->
  run (get_weather env w location) = (Raise (ValueError key_not_set), []) /\
  forall v, fst (run (get_weather env w location)) <> Return v.
Proof.
  intros Hk. unfold get_weather. rewrite Hk. split; [reflexivity|].
  intros v. discriminate.
Qed.

Lemma weather_requires_key_witness :
  run (get_weather no_weather_key offline (lit "Paris"))
  = (Raise (ValueError key_not_set), []) /\
  forall v, fst (run (get_weather no_weather_key offline (lit "Paris"))) <> Return v.
Proof. apply (weather_requires_key no_weather_key offline (lit "Paris")). reflexivity. Defined.

(** *** The search tool on an empty result list *)

(** C5, on the code: when the search answers with an empty result list
    the search tool returns the empty string. *)
Theorem search_without_results_is_empty :
  run (tavily_search all_keys (answering no_results PNone PNone)
         (lit "museums in Atlantis"))
  = (Return (PStr []),
     [TavilyInvoke (TavilySearch all_keys) (lit "museums in Atlantis")]).
Proof. reflexivity. Qed.

(** *** The hotel tool *)

(** C7. For every location the hotel tool sends the one query
    "Best hotels in <location>"; on a non-empty result list it returns the
    content of the first result, on an empty one the fixed text
    "No hotel recommendations found.". *)
Theorem hotel_first_result_or_none env w location response results :
  tavily_answer w (TavilySearch env) (lit "Best hotels in " ++ location)
  = Return response ->
  getitem_str response (lit "results") = Return (PList results) ->
  snd (run (get_hotel_recommendations env w location))
  = [TavilyInvoke (TavilySearch env) (lit "Best hotels in " ++ location)] /\
  (forall first rest content,
      results = first :: rest ->
      getitem_str first (lit "content") = Return content ->
      fst (run (get_hotel_recommendations env w location)) = Return content) /\
  (results = [] ->
   fst (run (get_hotel_recommendations env w location))
   = Return (PStr (lit "No hotel recommendations found."))).
Proof.
  intros Hans Hres. unfold get_hotel_recommendations, hotel_query. step_m.
  rewrite Hans. cbn. rewrite Hres. cbn.
  destruct results as [|first rest]; cbn; rewrite ?seq_index_head; cbn.
  - split; [reflexivity|]. split; [discriminate | reflexivity].
  - split; [|split].
    + destruct (getitem_str first (lit "content")); reflexivity.
    + intros f r c [= <- <-] Hc. rewrite Hc. reflexivity.
    + discriminate.
Qed.

Lemma hotel_first_result_or_none_witness :
  snd (run (get_hotel_recommendations all_keys
              (answering two_hotels PNone PNone) (lit "Kolhapur")))
  = [TavilyInvoke (TavilySearch all_keys) (lit "Best hotels in " ++ lit "Kolhapur")] /\
  fst (run (get_hotel_recommendations all_keys
              (answering two_hotels PNone PNone) (lit "Kolhapur")))
  = Return (PStr (lit "Hotel Sayaji, near the lake.")).
Proof.
  destruct (hotel_first_result_or_none all_keys (answering two_hotels PNone PNone)
              (lit "Kolhapur") two_hotels
              [PDict [(lit "title", PStr (lit "Stay"));
                      (lit "content", PStr (lit "Hotel Sayaji, near the lake."))];
               PDict [(lit "content", PStr (lit "Hotel Pearl."))]]
              eq_refl eq_refl) as (Hlog & Hfirst & _).
  split; [exact Hlog|].
  eapply Hfirst; reflexivity.
Defined.

End ToolFacts.

(* ===================================================================== *)
(** ** The page *)
(* ===================================================================== *)

Module AppFacts.
Import PyStr PyVal Tools App ToolFacts DayFacts.

(** C10. The reset callback leaves the three text fields empty and the
    duration at 1, the minimum of its widget, and changes no other entry
    of the session state. *)
Theorem clear_inputs_resets_form_only (st : session_state) :
  clear_inputs st !! city_input = Some (PStr []) /\
  clear_inputs st !! interests_input = Some (PStr []) /\
  clear_inputs st !! time_input = Some (PStr []) /\
  clear_inputs st !! duration_input = Some (PInt duration_min_value) /\
  forall key : string, ~ In key form_fields -> clear_inputs st !! key = st !! key.
Proof.
  unfold clear_inputs, form_fields, city_input, interests_input, time_input,
    duration_input, duration_min_value.
  split; [|split; [|split; [|split]]];
    try (repeat (rewrite lookup_insert_eq
                 || rewrite lookup_insert_ne by discriminate);
         reflexivity).
  intros key Hkey. cbn [In] in Hkey.
  rewrite !lookup_insert_ne; [reflexivity | intros <-; tauto ..].
Qed.

Lemma init_field_keeps key v (st : session_state) k x :
  st !! k = Some x -> init_field key v st !! k = Some x.
Proof.
  intros H. unfold init_field. destruct (st !! key) eqn:E; [exact H|].
  rewrite lookup_insert_ne; [exact H | congruence].
Qed.

(** A rerun of the script never overwrites what the session already holds. *)
Lemma init_session_state_keeps (st : session_state) k x :
  st !! k = Some x -> init_session_state st !! k = Some x.
Proof.
  intros H. unfold init_session_state. now do 4 apply init_field_keeps.
Qed.

(** On a fresh session the defaults are the values the reset writes. *)
Lemma init_fresh_is_reset : init_session_state ∅ = clear_inputs ∅.
Proof.
  unfold init_session_state, clear_inputs, init_field.
  repeat (rewrite ?lookup_insert_ne by discriminate; rewrite lookup_empty).
  reflexivity.
Qed.

Definition kolhapur_reply : pyval :=
  PDict [(lit "input", PStr (lit "..."));
         (lit "output", PStr three_day_plan)].

Definition kolhapur_world : world := answering no_results PNone kolhapur_reply.

Definition kolhapur_bytes : list N :=
  match encode_utf8 (lit "AI Travel Plan for Kolhapur" ++ [10%N; 10%N]
                     ++ three_day_plan) with
  | Some bytes => bytes
  | None => []
  end.

(** With a required field left empty nothing is sent to the agent. *)
Lemma generate_requires_fields w city duration interests time_of_year :
  truthy city && truthy interests && truthy time_of_year = false ->
  run (generate w city duration interests time_of_year)
  = (Return tt, [StWarning (lit "Please fill in all required fields.")]).
Proof.
  intros H. unfold generate.
  destruct (truthy city), (truthy interests), (truthy time_of_year);
    try discriminate; reflexivity.
Qed.


End AppFacts.

(* ===================================================================== *)
(** ** The reasoning loop stops *)
(* ===================================================================== *)

Module AgentLoopFacts.
Import PyStr PyVal Tools AgentLoop.

Section Bounds.
Variable cfg : executor_config.
Variable retry_limit : nat.
Variable c : collaborators.

Local Abbreviation cap := (iteration_cap cfg).
Local Abbreviation step := (step cfg retry_limit c).
Local Abbreviation after := (after cfg retry_limit c).










End Bounds.


(** A reasoning engine that never finishes, and one whose replies never
    parse, under the caps the program configures. *)
Definition always_invoke : collaborators :=
  {| engine := fun _ => Some (Invoke (lit "tavily_search") (lit "Kolhapur"));
     registry := fun _ => None;
     clock := fun n => (5 * Z.of_nat n)%Z |}.

Definition slow_clock : collaborators :=
  {| engine := engine always_invoke;
     registry := registry always_invoke;
     clock := fun n => (50 * Z.of_nat n)%Z |}.

Example configured_iteration_cap :
  let m := after agent_executor 3 always_invoke 31 in
  phase m = Aborted (lit "iteration or time limit") /\ iterations m = 15.
Proof. split; reflexivity. Qed.

Example configured_time_cap :
  let m := after agent_executor 3 slow_clock 31 in
  phase m = Aborted (lit "iteration or time limit") /\
  called_at m = [0; 50; 100]%Z.
Proof. split; reflexivity. Qed.



End AgentLoopFacts.

(* ===================================================================== *)
(** ** The tools on answers they can read *)
(* ===================================================================== *)

Module SearchFacts.
Import PyStr PyVal Tools PyStrFacts ToolFacts.

(** What one result adds to the text the search tool builds: its content
    and a newline, or nothing when it has no content or an empty one. *)
Definition content_line (w : world) (result : list (pystr * pyval)) : pystr :=
  match dict_get result (lit "content") with
  | Some c => if truthy c then py_str w c ++ newline else []
  | None => []
  end.

Definition three_results : pyval :=
  PDict [(lit "results",
          PList [PDict [(lit "content", PStr (lit "Rankala lake at dusk. "))];
                 PDict [(lit "title", PStr (lit "no content here"))];
                 PDict [(lit "content", PStr [])];
                 PDict [(lit "content", PStr (lit "Misal at Phadtare."))]])].

(** The loop of the search tool, as a function of the accumulator. *)
Lemma search_loop_dicts w (results : list (list (pystr * pyval))) acc
    (log : list request) :
  for_each (map PDict results) acc
    (fun result combined_content =>
       bind (lift (py_in (lit "content") result)) (fun present =>
       bind (if present
             then bind (lift (getitem_str result (lit "content")))
                    (fun c => ret (truthy c))
             else ret false) (fun cond =>
       if cond
       then bind (lift (getitem_str result (lit "content")))
              (fun c => ret (combined_content ++ py_str w c ++ newline))
       else ret combined_content))) log
  = (Return (acc ++ concat (map (content_line w) results)), log).
Proof.
  revert acc. induction results as [|d results IH]; intros acc.
  - cbn. unfold ret. now rewrite app_nil_r.
  - cbn [map for_each concat]. unfold bind at 1.
    match goal with |- match ?body with _ => _ end = _ =>
      assert (body = (Return (acc ++ content_line w d), log)) as ->
    end.
    { unfold bind, lift, ret, content_line. cbn [py_in getitem_str].
      destruct (dict_get d (lit "content")) as [c|]; [destruct (truthy c)|];
        rewrite ?app_nil_r; reflexivity. }
    rewrite IH. now rewrite <- app_assoc.
Qed.

(** X1. On an answer whose results are all objects, the search tool
    returns the contents of the results that have a non-empty one, in the
    order of the results, each followed by a newline, the whole stripped of
    white space at both ends; results without content are skipped. *)
Theorem search_concatenates_contents env w query response results :
  tavily_answer w (TavilySearch env) query = Return response ->
  getitem_str response (lit "results") = Return (PList (map PDict results)) ->
  run (tavily_search env w query)
  = (Return (PStr (strip (concat (map (content_line w) results)))),
     [TavilyInvoke (TavilySearch env) query]).
Proof.
  intros Hans Hres. unfold tavily_search, run.
  unfold bind at 1, invoke. rewrite Hans.
  unfold bind at 1, lift at 1. rewrite Hres.
  unfold bind at 1, lift at 1. cbn [py_iter].
  unfold bind at 1. rewrite search_loop_dicts. reflexivity.
Qed.

Lemma search_concatenates_contents_witness :
  run (tavily_search all_keys (answering three_results PNone PNone)
         (lit "things to do in Kolhapur"))
  = (Return (PStr (strip (concat (map
        (content_line (answering three_results PNone PNone))
        [[(lit "content", PStr (lit "Rankala lake at dusk. "))];
         [(lit "title", PStr (lit "no content here"))];
         [(lit "content", PStr [])];
         [(lit "content", PStr (lit "Misal at Phadtare."))]])))),
     [TavilyInvoke (TavilySearch all_keys) (lit "things to do in Kolhapur")]).
Proof.
  apply (search_concatenates_contents all_keys
           (answering three_results PNone PNone)
           (lit "things to do in Kolhapur") three_results); reflexivity.
Defined.

Lemma bind_Return_inv {E A B} (m : M E A) (k : A -> M E B) log v :
  fst (bind m k log) = Return v ->
  exists a log', m log = (Return a, log') /\ fst (k a log') = Return v.
Proof.
  unfold bind. destruct (m log) as [[a|e] log']; [eauto | discriminate].
Qed.

Lemma snd_bind {E A B} (m : M E A) (k : A -> M E B) log log' :
  snd (m log) = log' ->
  (forall a, snd (k a log') = log') ->
  snd (bind m k log) = log'.
Proof.
  unfold bind. destruct (m log) as [[a|e] l]; cbn; intros ->; auto.
Qed.

(** The loop of the search tool sends nothing. *)
Lemma for_each_keeps_log {A S} (body : A -> S -> M request S) :
  (forall x acc log, snd (body x acc log) = log) ->
  forall items acc log, snd (for_each items acc body log) = log.
Proof.
  intros Hbody. induction items as [|x items IH]; intros acc log; [reflexivity|].
  cbn [for_each]. unfold bind. specialize (Hbody x acc log).
  destruct (body x acc log) as [[acc'|e] log']; cbn in *; subst; [apply IH | reflexivity].
Qed.

Lemma search_body_keeps_log w result (combined_content : pystr)
    (log : list request) :
  snd (bind (lift (py_in (lit "content") result)) (fun present =>
       bind (if present
             then bind (lift (getitem_str result (lit "content")))
                    (fun c => ret (truthy c))
             else ret false) (fun cond =>
       if cond
       then bind (lift (getitem_str result (lit "content")))
              (fun c => ret (combined_content ++ py_str w c ++ newline))
       else ret combined_content)) log) = log.
Proof.
  unfold bind, lift, ret.
  destruct (py_in (lit "content") result) as [[|]|]; cbn; try reflexivity.
  destruct (getitem_str result (lit "content")) as [c|]; cbn; [|reflexivity].
  destruct (truthy c); reflexivity.
Qed.

(** X2. Whatever the search service answers, a text the search tool
    returns has no white space at either end (in particular no trailing
    newline), and it returns nothing but text. *)
Theorem search_returns_trimmed_text env w query v :
  fst (run (tavily_search env w query)) = Return v ->
  exists s, v = PStr s /\ trimmed s.
Proof.
  unfold tavily_search, run. intros H.
  apply bind_Return_inv in H as (response & log1 & _ & H).
  apply bind_Return_inv in H as (results & log2 & _ & H).
  apply bind_Return_inv in H as (items & log3 & _ & H).
  apply bind_Return_inv in H as (acc & log4 & _ & H).
  injection H as <-. eexists. split; [reflexivity|].
  destruct (strip_spec acc) as (_ & _ & _ & _ & _ & H). exact H.
Qed.

Lemma search_returns_trimmed_text_witness :
  exists s, PStr (lit "Rankala lake at dusk. " ++ [10%N] ++ lit "Misal at Phadtare.")
            = PStr s /\ trimmed s.
Proof.
  apply (search_returns_trimmed_text all_keys (answering three_results PNone PNone)
           (lit "things to do in Kolhapur")).
  reflexivity.
Defined.

(** X3. One call of a tool sends exactly one request, whatever comes back:
    the search tool its query, the hotel tool "Best hotels in <location>",
    both with [max_results=5], topic "general" and the key of the
    environment; the weather tool one GET of the weather URL, and none at
    all without its key. *)
Theorem one_request_per_call env w t input :
  snd (run (execute env w t input))
  = match t with
    | Search => [TavilyInvoke (TavilySearch env) input]
    | Hotel => [TavilyInvoke (TavilySearch env) (lit "Best hotels in " ++ input)]
    | Weather =>
        if configured (open_weather_api_key env)
        then [RequestsGet
                (weather_url input (str_of_env (open_weather_api_key env)))]
        else []
    end.
Proof.
  destruct t; cbn [execute].
  - unfold tavily_search, run.
    apply snd_bind; [reflexivity | intros response].
    apply snd_bind; [reflexivity | intros results].
    apply snd_bind; [reflexivity | intros items].
    apply snd_bind; [|reflexivity].
    apply for_each_keeps_log, search_body_keeps_log.
  - unfold get_weather. destruct (configured (open_weather_api_key env));
      [|reflexivity].
    cbn [negb]. unfold run.
    apply snd_bind; [reflexivity | intros response].
    repeat (apply snd_bind; [reflexivity | intros ?]). reflexivity.
  - unfold get_hotel_recommendations, hotel_query, run.
    apply snd_bind; [reflexivity | intros response].
    apply snd_bind; [reflexivity | intros results].
    destruct (truthy results); [|reflexivity].
    repeat (apply snd_bind; [reflexivity | intros ?]). reflexivity.
Qed.

(** X4. With its key set, on an answer that has both the temperature and
    the description of the first weather entry, the weather tool sends one
    GET of [http://api.openweathermap.org/data/2.5/weather?q=<location>&appid=<key>&units=metric]
    and returns "The current temperature in <location> is <temp>°C with
    <description>.". *)
Theorem weather_reports_temperature
    env w location key response d m temp f rest description :
  open_weather_api_key env = Some key -> key <> [] ->
  requests_answer w
    (lit "http://api.openweathermap.org/data/2.5/weather?q=" ++ location
     ++ lit "&appid=" ++ key ++ lit "&units=metric") = Return response ->
  json response = Return (PDict d) ->
  dict_get d (lit "main") = Some (PDict m) ->
  dict_get m (lit "temp") = Some temp ->
  dict_get d (lit "weather") = Some (PList (PDict f :: rest)) ->
  dict_get f (lit "description") = Some description ->
  run (get_weather env w location)
  = (Return (PStr (lit "The current temperature in " ++ location ++ lit " is "
                   ++ py_str w temp ++ [176%N] ++ lit "C with "
                   ++ py_str w description ++ lit ".")),
     [RequestsGet
        (lit "http://api.openweathermap.org/data/2.5/weather?q=" ++ location
         ++ lit "&appid=" ++ key ++ lit "&units=metric")]).
Proof.
  intros Hkey Hne Hget Hjson H1 H2 H3 H4. unfold get_weather. rewrite Hkey.
  destruct key as [|k key]; [contradiction|]. cbn [configured negb str_of_env].
  unfold weather_url, run, bind, requests_get, lift, ret. rewrite Hget, Hjson.
  cbn [getitem_str]. rewrite H1. cbn [getitem_str]. rewrite H2, H3.
  cbn [getitem_int]. rewrite seq_index_head. cbn [getitem_str]. rewrite H4.
  reflexivity.
Qed.

Lemma weather_reports_temperature_witness :
  run (get_weather all_keys (answering no_results paris_weather PNone) (lit "Paris"))
  = (Return (PStr (lit "The current temperature in " ++ lit "Paris" ++ lit " is "
                   ++ py_str (answering no_results paris_weather PNone) (PInt 21)
                   ++ [176%N] ++ lit "C with "
                   ++ py_str (answering no_results paris_weather PNone)
                        (PStr (lit "clear sky")) ++ lit ".")),
     [RequestsGet
        (lit "http://api.openweathermap.org/data/2.5/weather?q=" ++ lit "Paris"
         ++ lit "&appid=" ++ lit "ow-demo" ++ lit "&units=metric")]).
Proof.
  apply (weather_reports_temperature all_keys
           (answering no_results paris_weather PNone) (lit "Paris") (lit "ow-demo")
           {| json := Return paris_weather |}
           [(lit "weather", PList [PDict [(lit "description", PStr (lit "clear sky"))]]);
            (lit "main", PDict [(lit "temp", PInt 21)])]
           [(lit "temp", PInt 21)] (PInt 21)
           [(lit "description", PStr (lit "clear sky"))] []
           (PStr (lit "clear sky")));
    try reflexivity.
  discriminate.
Defined.

(** X5. On a non-empty result list the outcome of the hotel tool is the
    lookup of "content" in the first result and nothing else: the later
    results never matter, and a first result without content makes the
    tool raise [KeyError('content')] even when a later one has content. *)
Theorem hotel_reads_first_result_only env w location response first rest :
  tavily_answer w (TavilySearch env) (lit "Best hotels in " ++ location)
  = Return response ->
  getitem_str response (lit "results") = Return (PList (first :: rest)) ->
  fst (run (get_hotel_recommendations env w location))
  = getitem_str first (lit "content") /\
  (forall f, first = PDict f -> dict_get f (lit "content") = None ->
             fst (run (get_hotel_recommendations env w location))
             = Raise (KeyError (PStr (lit "content")))).
Proof.
  intros Hans Hres.
  assert (fst (run (get_hotel_recommendations env w location))
          = getitem_str first (lit "content")) as H.
  { unfold get_hotel_recommendations, hotel_query, run, bind, invoke, lift, ret.
    rewrite Hans, Hres. cbn [truthy getitem_int]. rewrite seq_index_head.
    now destruct (getitem_str first (lit "content")). }
  split; [exact H|].
  intros f -> Hf. rewrite H. cbn [getitem_str]. now rewrite Hf.
Qed.

Definition content_in_second : pyval :=
  PDict [(lit "results",
          PList [PDict [(lit "title", PStr (lit "Stay"))];
                 PDict [(lit "content", PStr (lit "Hotel Pearl."))]])].

Lemma hotel_reads_first_result_only_witness :
  fst (run (get_hotel_recommendations all_keys
              (answering content_in_second PNone PNone) (lit "Kolhapur")))
  = Raise (KeyError (PStr (lit "content"))).
Proof.
  destruct (hotel_reads_first_result_only all_keys
              (answering content_in_second PNone PNone) (lit "Kolhapur")
              content_in_second
              (PDict [(lit "title", PStr (lit "Stay"))])
              [PDict [(lit "content", PStr (lit "Hotel Pearl."))]]
              eq_refl eq_refl) as [_ H].
  apply (H [(lit "title", PStr (lit "Stay"))]); reflexivity.
Defined.

End SearchFacts.

(* ===================================================================== *)
(** ** More on the day sections *)
(* ===================================================================== *)

Module SectionFacts.
Import PyStr PyVal Tools App PyStrFacts DayFacts.

Lemma enumerate_length {A} (items : list A) start :
  length (enumerate items start) = length items.
Proof.
  revert start. induction items as [|x items IH]; intros start; cbn;
    [reflexivity | now rewrite IH].
Qed.


(** As many pieces follow a marker as the text has markers. *)
Lemma pieces_count_markers text :
  length (day_sections text) = occurrences day_marker text /\
  length (shown_days text) = occurrences day_marker text.
Proof.
  destruct (split_days_spec text) as (Hlen & _ & _).
  unfold day_sections, shown_days.
  rewrite !length_map, enumerate_length.
  destruct (split_days text); cbn in *; lia.
Qed.


Definition misnumbered_plan : pystr := lit "Day 7: fort Day 7: lake".


Lemma find_starts_with sep s i :
  find sep s = Some i -> starts_with sep (skipn i s) = true.
Proof.
  revert i. induction s as [|b s IH]; intros i; cbn [find].
  - destruct (starts_with sep []) eqn:E; [|discriminate]. now intros [= <-].
  - destruct (starts_with sep (b :: s)) eqn:E; [now intros [= <-]|].
    destruct (find sep s) as [j|]; [|discriminate].
    intros [= <-]. now apply IH.
Qed.

Lemma starts_with_find sep s : starts_with sep s = true -> find sep s = Some 0.
Proof. destruct s; cbn [find]; now intros ->. Qed.

(** X8. What precedes the first day marker is never shown: the sections
    of a text are the sections of the text cut at its first marker. *)
Theorem preamble_is_dropped text i :
  find day_marker text = Some i ->
  day_sections text = day_sections (skipn i text) /\
  shown_days text = shown_days (skipn i text).
Proof.
  intros H. unfold day_sections, shown_days.
  rewrite (split_days_unfold text), H.
  rewrite (split_days_unfold (skipn i text)).
  rewrite (starts_with_find _ _ (find_starts_with _ _ _ H)).
  cbn [tl]. rewrite skipn_skipn. replace (0 + 4 + i) with (i + 4) by lia.
  split; reflexivity.
Qed.

Lemma preamble_is_dropped_witness :
  day_sections three_day_plan = day_sections (skipn 9 three_day_plan) /\
  shown_days three_day_plan = shown_days (skipn 9 three_day_plan).
Proof. apply (preamble_is_dropped three_day_plan 9). reflexivity. Defined.

(** X9. The split of the final text loses nothing: its pieces, joined
    again with "Day ", are the text. *)
Theorem days_rejoin text : join day_marker (split_days text) = text.
Proof. apply join_split. Qed.

Lemma lstrip_trimmed t :
  (forall c t', t = c :: t' -> is_space c = false) -> lstrip t = t.
Proof.
  destruct t as [|c t']; [reflexivity|]. intros H. cbn.
  now rewrite (H c t' eq_refl).
Qed.

Lemma strip_trimmed t : trimmed t -> strip t = t.
Proof.
  intros [Hhd Hlast]. unfold strip, rstrip. rewrite (lstrip_trimmed t Hhd).
  rewrite lstrip_trimmed; [apply rev_involutive|].
  intros c u Hu. apply (Hlast c (rev u)).
  rewrite <- (rev_involutive t), Hu. reflexivity.
Qed.

(** X10. [strip] removes white space and nothing else: the text is its
    stripped form between two runs of white space, the stripped form has
    none at either end, and stripping again changes nothing. *)
Theorem strip_removes_only_white_space s :
  (exists l r, s = l ++ strip s ++ r /\ blank l /\ blank r) /\
  trimmed (strip s) /\
  strip (strip s) = strip s.
Proof.
  destruct (strip_spec s) as (l & r & Hs & Hl & Hr & Ht).
  split; [|split].
  - exists l, r. now repeat split.
  - exact Ht.
  - now apply strip_trimmed.
Qed.

End SectionFacts.

(* ===================================================================== *)
(** ** The bytes of the download *)
(* ===================================================================== *)

Module EncodeFacts.
Import PyStr.

(** The code points [encode("utf-8")] refuses: the surrogates, and what
    lies beyond U+10FFFF. *)
Definition unencodable (c : N) : bool :=
  ((55296 <=? c) && (c <=? 57343) || (1114112 <=? c))%N.

Ltac split_comparisons :=
  repeat match goal with
         | |- context [(?a <? ?b)%N] => destruct (N.ltb_spec a b)
         | |- context [(?a <=? ?b)%N] => destruct (N.leb_spec a b)
         end.

Lemma utf8_char_None c : utf8_char c = None <-> unencodable c = true.
Proof.
  unfold utf8_char, unencodable. split_comparisons; cbn;
    split; intros; try discriminate; try reflexivity; lia.
Qed.

(** X11. Encoding the file text fails exactly when the text holds a lone
    surrogate (U+D800 to U+DFFF) or a value above U+10FFFF. *)
Theorem encode_fails_on_surrogates_only s :
  encode_utf8 s = None <-> existsb unencodable s = true.
Proof.
  induction s as [|c s IH]; cbn [encode_utf8 existsb].
  - split; discriminate.
  - rewrite orb_true_iff, <- IH, <- utf8_char_None.
    destruct (utf8_char c), (encode_utf8 s); split; intros H;
      try discriminate; try reflexivity; auto; now destruct H.
Qed.

Lemma utf8_char_bytes c bs :
  utf8_char c = Some bs ->
  1 <= length bs <= 4 /\ Forall (fun b => (b < 256)%N) bs.
Proof.
  unfold utf8_char. split_comparisons; cbn; try discriminate;
    intros [= <-]; (split; [cbn; lia|]); repeat constructor;
    try lia;
    try (pose proof (N.mod_lt c 64 ltac:(lia)); lia);
    try (pose proof (N.mod_lt (c / 64) 64 ltac:(lia)); lia);
    try (pose proof (N.mod_lt (c / 4096) 64 ltac:(lia)); lia).
  all: try (assert (c / 64 < 32)%N
              by (apply N.Div0.div_lt_upper_bound; lia); lia).
  all: try (assert (c / 4096 < 16)%N
              by (apply N.Div0.div_lt_upper_bound; lia); lia).
  all: assert (c / 262144 < 5)%N by (apply N.Div0.div_lt_upper_bound; lia); lia.
Qed.

(** X12. When the file text encodes, every value of the result is a byte
    (below 256) and each code point gave between one and four of them. *)
Theorem encoded_bytes_are_bytes s bytes :
  encode_utf8 s = Some bytes ->
  length s <= length bytes <= 4 * length s /\
  Forall (fun b => (b < 256)%N) bytes.
Proof.
  revert bytes. induction s as [|c s IH]; intros bytes; cbn [encode_utf8].
  - intros [= <-]. split; [cbn; lia | constructor].
  - destruct (utf8_char c) as [bs|] eqn:Ec; [|discriminate].
    destruct (encode_utf8 s) as [rest|]; [|discriminate].
    intros [= <-]. destruct (utf8_char_bytes c bs Ec) as [Hn Hb].
    destruct (IH rest eq_refl) as [Hlen Hrest].
    split; [rewrite length_app; cbn [length]; lia | now apply Forall_app].
Qed.

Lemma encoded_bytes_are_bytes_witness :
  length [176%N; 128197%N; 67%N] <= length [194; 176; 240; 159; 147; 133; 67]%N
    <= 4 * length [176%N; 128197%N; 67%N] /\
  Forall (fun b => (b < 256)%N) [194; 176; 240; 159; 147; 133; 67]%N.
Proof.
  apply (encoded_bytes_are_bytes [176%N; 128197%N; 67%N]). reflexivity.
Defined.

(** X13. A text of ASCII characters only is encoded as itself, one byte
    per character. *)
Theorem ascii_encodes_as_itself s :
  Forall (fun c => (c < 128)%N) s -> encode_utf8 s = Some s.
Proof.
  induction 1 as [|c s Hc _ IH]; [reflexivity|].
  cbn [encode_utf8]. unfold utf8_char.
  destruct (N.ltb_spec c 128); [|lia]. now rewrite IH.
Qed.

Lemma ascii_encodes_as_itself_witness :
  encode_utf8 (lit "AI Travel Plan for Kolhapur")
  = Some (lit "AI Travel Plan for Kolhapur").
Proof.
  apply (ascii_encodes_as_itself (lit "AI Travel Plan for Kolhapur")).
  unfold lit. cbn [map list_ascii_of_string].
  repeat constructor.
Defined.

End EncodeFacts.

(* ===================================================================== *)
(** ** Reading the bytes back *)
(* ===================================================================== *)

Module DecodeFacts.
Import PyStr PyStrFacts EncodeFacts.

(** A text [encode("utf-8")] accepts. *)
Definition encodable (s : pystr) : bool := negb (existsb unencodable s).

(** Reading UTF-8 back, by the leading byte of each sequence: what a
    reader of the downloaded file sees. *)
Fixpoint decode_utf8 (bytes : list N) : option pystr :=
  match bytes with
  | [] => Some []
  | b0 :: r0 =>
      if (b0 <? 128)%N then option_map (cons b0) (decode_utf8 r0)
      else
        match r0 with
        | [] => None
        | b1 :: r1 =>
            if (b0 <? 224)%N
            then option_map (cons ((b0 - 192) * 64 + (b1 - 128))%N)
                   (decode_utf8 r1)
            else
              match r1 with
              | [] => None
              | b2 :: r2 =>
                  if (b0 <? 240)%N
                  then option_map
                         (cons ((b0 - 224) * 4096 + (b1 - 128) * 64
                                + (b2 - 128))%N)
                         (decode_utf8 r2)
                  else
                    match r2 with
                    | [] => None
                    | b3 :: r3 =>
                        option_map
                          (cons ((b0 - 240) * 262144 + (b1 - 128) * 4096
                                 + (b2 - 128) * 64 + (b3 - 128))%N)
                          (decode_utf8 r3)
                    end
              end
        end
  end.

Lemma encode_utf8_None s :
  encode_utf8 s = None <-> existsb unencodable s = true.
Proof.
  induction s as [|c s IH]; cbn [encode_utf8 existsb].
  - split; discriminate.
  - rewrite orb_true_iff, <- IH, <- utf8_char_None.
    destruct (utf8_char c), (encode_utf8 s); split; intros H;
      try discriminate; try reflexivity; auto; now destruct H.
Qed.

Lemma encodable_encodes s :
  encodable s = true <-> exists bytes, encode_utf8 s = Some bytes.
Proof.
  unfold encodable. pose proof (encode_utf8_None s) as H.
  destruct (encode_utf8 s) as [bytes|]; destruct (existsb unencodable s);
    cbn; split; intros H'; eauto; try discriminate.
  - destruct H as [_ H]. now specialize (H eq_refl).
  - destruct H' as [? ?]. discriminate.
  - destruct H as [H _]. now specialize (H eq_refl).
Qed.

Lemma encodable_app a b : encodable (a ++ b) = encodable a && encodable b.
Proof. unfold encodable. now rewrite existsb_app, negb_orb. Qed.

Lemma encodable_lit s : encodable (lit s) = true.
Proof.
  unfold encodable, lit. induction (list_ascii_of_string s) as [|a l IH];
    [reflexivity|].
  cbn [map existsb]. rewrite negb_orb, IH, andb_true_r.
  pose proof (N_ascii_bounded a) as Ha. unfold unencodable.
  destruct (N.leb_spec 55296 (N_of_ascii a)); [lia|].
  destruct (N.leb_spec 1114112 (N_of_ascii a)); [lia|]. reflexivity.
Qed.

Lemma encodable_strip s : encodable s = true -> encodable (strip s) = true.
Proof.
  destruct (strip_spec s) as (l & r & Hs & _). intros H.
  rewrite Hs, !encodable_app in H.
  now apply andb_prop in H as [_ [H _]%andb_prop].
Qed.

Lemma encodable_join sep pieces piece :
  encodable (join sep pieces) = true -> In piece pieces ->
  encodable piece = true.
Proof.
  induction pieces as [|x [|y rest] IH]; cbn [join]; intros H Hin.
  - destruct Hin.
  - destruct Hin as [<-|[]]. exact H.
  - rewrite !encodable_app in H.
    apply andb_prop in H as [Hx [_ Hrest]%andb_prop].
    destruct Hin as [<-|Hin]; [exact Hx | now apply IH].
Qed.

(** One code point and its bytes. *)
Lemma decode_utf8_char c bs rest :
  utf8_char c = Some bs ->
  decode_utf8 (bs ++ rest) = option_map (cons c) (decode_utf8 rest).
Proof.
  unfold utf8_char.
  pose proof (N.div_mod c 64 ltac:(lia)) as D1.
  pose proof (N.mod_lt c 64 ltac:(lia)) as M1.
  pose proof (N.div_mod (c / 64) 64 ltac:(lia)) as D2.
  pose proof (N.mod_lt (c / 64) 64 ltac:(lia)) as M2.
  pose proof (N.div_mod (c / 4096) 64 ltac:(lia)) as D3.
  pose proof (N.mod_lt (c / 4096) 64 ltac:(lia)) as M3.
  assert (c / 64 / 64 = c / 4096)%N as E2
    by (now rewrite N.Div0.div_div).
  assert (c / 4096 / 64 = c / 262144)%N as E3
    by (now rewrite N.Div0.div_div).
  rewrite E2 in D2. rewrite E3 in D3. clear E2 E3.
  remember ((c / 4096) mod 64)%N as r3 eqn:Er3.
  remember ((c / 64) mod 64)%N as r2 eqn:Er2.
  remember (c mod 64)%N as r1 eqn:Er1.
  remember (c / 262144)%N as q3 eqn:Eq3.
  remember (c / 4096)%N as q2 eqn:Eq2.
  remember (c / 64)%N as q1 eqn:Eq1.
  clear Er1 Er2 Er3 Eq1 Eq2 Eq3.
  destruct (N.ltb_spec c 128) as [H1|H1].
  { intros [= <-]. cbn [app decode_utf8].
    destruct (N.ltb_spec c 128); [reflexivity | lia]. }
  destruct (N.ltb_spec c 2048) as [H2|H2].
  { intros [= <-]. cbn [app decode_utf8].
    destruct (N.ltb_spec (192 + q1) 128); [lia|].
    destruct (N.ltb_spec (192 + q1) 224); [|lia].
    do 2 f_equal. lia. }
  destruct ((55296 <=? c) && (c <=? 57343))%N; [discriminate|].
  destruct (N.ltb_spec c 65536) as [H3|H3].
  { intros [= <-]. cbn [app decode_utf8].
    destruct (N.ltb_spec (224 + q2) 128); [lia|].
    destruct (N.ltb_spec (224 + q2) 224); [lia|].
    destruct (N.ltb_spec (224 + q2) 240); [|lia].
    do 2 f_equal. lia. }
  destruct (N.ltb_spec c 1114112) as [H4|H4]; [|discriminate].
  intros [= <-]. cbn [app decode_utf8].
  destruct (N.ltb_spec (240 + q3) 128); [lia|].
  destruct (N.ltb_spec (240 + q3) 224); [lia|].
  destruct (N.ltb_spec (240 + q3) 240); [lia|].
  do 2 f_equal. lia.
Qed.

(** What was encoded is what is read back. *)
Lemma decode_encode s bytes :
  encode_utf8 s = Some bytes -> decode_utf8 bytes = Some s.
Proof.
  revert bytes. induction s as [|c s IH]; intros bytes; cbn [encode_utf8].
  - now intros [= <-].
  - destruct (utf8_char c) as [bs|] eqn:Ec; [|discriminate].
    destruct (encode_utf8 s) as [rest|]; [|discriminate].
    intros [= <-]. rewrite (decode_utf8_char c bs rest Ec), (IH rest eq_refl).
    reflexivity.
Qed.

End DecodeFacts.

(* ===================================================================== *)
(** ** Writing the day sections *)
(* ===================================================================== *)

Module DisplayFacts.
Import PyStr PyVal Tools App PyStrFacts DayFacts SectionFacts EncodeFacts
  DecodeFacts.



Lemma encodable_written i piece :
  encodable (lit "**Day " ++ str_of_Z i ++ lit "**: " ++ strip piece)
  = encodable (strip piece).
Proof.
  unfold str_of_Z. now rewrite !encodable_app, !encodable_lit.
Qed.

Lemma write_day_written i piece (log : list ui) :
  encodable (strip piece) = true ->
  write_day (i, piece) log = (Return tt, log ++ [show_day (i, piece)]).
Proof.
  intros H. rewrite <- (encodable_written i) in H.
  apply encodable_encodes in H as [bytes H].
  unfold write_day. now rewrite H.
Qed.

Lemma write_day_refused i piece (log : list ui) :
  encodable (strip piece) = false ->
  write_day (i, piece) log
  = (Raise UnicodeEncodeError,
     log ++ [StExpanderOpened (calendar ++ lit " Day " ++ str_of_Z i) true]).
Proof.
  intros H. rewrite <- (encodable_written i) in H.
  unfold write_day.
  destruct (encode_utf8 _) as [bytes|] eqn:E; [|reflexivity].
  assert (encodable (lit "**Day " ++ str_of_Z i ++ lit "**: " ++ strip piece)
          = true) as H' by (apply encodable_encodes; eauto).
  congruence.
Qed.

(** The loop while every write goes through. *)
Lemma write_days_all pieces start (log : list ui) :
  Forall (fun piece => encodable (strip piece) = true) pieces ->
  for_each (enumerate pieces start) tt (fun entry _ => write_day entry) log
  = (Return tt, log ++ map show_day (enumerate pieces start)).
Proof.
  intros H. revert start log.
  induction H as [|piece pieces Hp _ IH]; intros start log.
  - cbn. unfold ret. now rewrite app_nil_r.
  - cbn [enumerate for_each map]. unfold bind.
    rewrite (write_day_written _ _ _ Hp), IH, <- app_assoc. reflexivity.
Qed.

(** The loop up to the first write that is refused. *)
Lemma write_days_until good bad rest start (log : list ui) :
  Forall (fun piece => encodable (strip piece) = true) good ->
  encodable (strip bad) = false ->
  for_each (enumerate (good ++ bad :: rest) start) tt
    (fun entry _ => write_day entry) log
  = (Raise UnicodeEncodeError,
     log ++ map show_day (enumerate good start)
     ++ [StExpanderOpened
           (calendar ++ lit " Day "
            ++ str_of_Z (start + Z.of_nat (length good))) true]).
Proof.
  intros Hgood Hbad. revert start log.
  induction Hgood as [|piece good Hp _ IH]; intros start log.
  - cbn [app enumerate for_each map length Z.of_nat]. unfold bind.
    rewrite (write_day_refused _ _ _ Hbad), Z.add_0_r. reflexivity.
  - cbn [app enumerate for_each map]. unfold bind.
    rewrite (write_day_written _ _ _ Hp), IH, <- app_assoc.
    cbn [length app].
    replace (start + 1 + Z.of_nat (length good))%Z
      with (start + Z.of_nat (S (length good)))%Z by lia.
    reflexivity.
Qed.

Lemma encodable_pieces text :
  encodable text = true ->
  Forall (fun piece => encodable (strip piece) = true) (tl (split_days text)).
Proof.
  intros H. destruct (split_days_spec text) as (_ & _ & Hjoin).
  rewrite <- Hjoin in H. apply List.Forall_forall. intros piece Hin.
  apply encodable_strip, (encodable_join day_marker (split_days text)); [exact H|].
  destruct (split_days text); [destruct Hin | now right].
Qed.

Lemma show_days_encodable text :
  encodable text = true ->
  run (show_days text) = (Return tt, shown_days text).
Proof.
  intros H. unfold run, show_days, shown_days.
  now rewrite (write_days_all _ _ _ (encodable_pieces text H)).
Qed.





(** X6. For every final text that UTF-8 accepts, every write goes through
    and the page shows exactly as many sections as the text has day
    markers. *)
Theorem encodable_text_shows_a_section_per_marker text :
  encodable text = true ->
  run (show_days text) = (Return tt, shown_days text) /\
  length (shown_days text) = occurrences day_marker text.
Proof.
  intros H. split; [now apply show_days_encodable|].
  apply pieces_count_markers.
Qed.

Lemma encodable_text_shows_a_section_per_marker_witness :
  run (show_days misnumbered_plan) = (Return tt, shown_days misnumbered_plan) /\
  length (shown_days misnumbered_plan) = occurrences day_marker misnumbered_plan.
Proof.
  apply (encodable_text_shows_a_section_per_marker misnumbered_plan).
  reflexivity.
Defined.

End DisplayFacts.

(* ===================================================================== *)
(** ** One rerun of the script *)
(* ===================================================================== *)

Module PageFacts.
Import PyStr PyVal Tools App PyStrFacts DayFacts ToolFacts AppFacts SectionFacts
  EncodeFacts DecodeFacts DisplayFacts.

(** *** The session state *)

(** The value the script gives a form field that the session lacks. *)
Definition form_default (key : string) : option pyval :=
  if decide (key = city_input) then Some (PStr [])
  else if decide (key = duration_input) then Some (PInt 1)
  else if decide (key = interests_input) then Some (PStr [])
  else if decide (key = time_input) then Some (PStr [])
  else None.

Lemma init_field_lookup key v (st : session_state) k :
  init_field key v st !! k
  = match st !! k with
    | Some x => Some x
    | None => if decide (k = key) then Some v else None
    end.
Proof.
  unfold init_field. destruct (st !! key) eqn:E.
  - destruct (st !! k) eqn:Ek; [reflexivity|].
    destruct (decide (k = key)) as [Heq|]; [congruence | reflexivity].
  - destruct (decide (k = key)) as [Heq|Hne].
    + rewrite Heq, lookup_insert_eq, E. reflexivity.
    + rewrite lookup_insert_ne by congruence. now destruct (st !! k).
Qed.

Lemma init_session_state_lookup (st : session_state) (k : string) :
  init_session_state st !! k
  = match st !! k with
    | Some x => Some x
    | None => form_default k
    end.
Proof.
  unfold init_session_state, form_default. rewrite !init_field_lookup.
  destruct (st !! k); [reflexivity|].
  unfold city_input, duration_input, interests_input, time_input.
  repeat case_decide; subst; try reflexivity; discriminate.
Qed.

(** X18. Initialising the session never overwrites anything: every key
    the session already holds keeps its value, a missing form field gets
    its default ("" for the three texts, 1 for the duration), and no other
    key appears. *)
Theorem init_fills_missing_fields_only (st : session_state) (k : string) :
  init_session_state st !! k
  = match st !! k with
    | Some x => Some x
    | None => form_default k
    end.
Proof. apply init_session_state_lookup. Qed.

(** X19. Initialising twice is the same as initialising once: a rerun of
    the script leaves an initialised session as it is. *)
Theorem init_idempotent (st : session_state) :
  init_session_state (init_session_state st) = init_session_state st.
Proof.
  apply map_eq. intros k. rewrite !init_session_state_lookup.
  destruct (st !! k); [reflexivity|]. now destruct (form_default k).
Qed.


Lemma clear_inputs_lookup (st : session_state) (k : string) :
  clear_inputs st !! k
  = match form_default k with
    | Some v => Some v
    | None => st !! k
    end.
Proof.
  unfold clear_inputs, form_default, city_input, duration_input,
    interests_input, time_input.
  repeat case_decide; subst;
    repeat (rewrite lookup_insert_eq
            || rewrite lookup_insert_ne by congruence);
    reflexivity.
Qed.

(** X20. The reset survives the rerun that follows it: initialising a
    session that was just cleared changes nothing, so the cleared values
    are the ones the script reads. *)
Theorem reset_survives_rerun (st : session_state) :
  init_session_state (clear_inputs st) = clear_inputs st.
Proof.
  apply map_eq. intros k.
  rewrite init_session_state_lookup, clear_inputs_lookup.
  now destruct (form_default k), (st !! k).
Qed.

(** *** The generate branch, case by case *)

Definition error_line (w : world) (e : exn) : ui :=
  StError (cross_mark ++ lit " Something went wrong: " ++ str_of_exn w e).

(** What the page shows once the agent has answered. *)
Definition after_agent (w : world) (city : pyval) (answer : outcome pyval)
  : list ui :=
  match answer with
  | Raise e => [error_line w e]
  | Return response =>
      match getitem_str response (lit "output") with
      | Raise e => [error_line w e]
      | Return output =>
          StSuccess (check_mark ++ lit " Here's your travel plan:")
          :: match output with
             | PStr plan_text =>
                 match run (show_days plan_text) with
                 | (Raise e, shown) => shown ++ [error_line w e]
                 | (Return _, shown) =>
                     shown
                     ++ match encode_utf8 (file_text w city plan_text) with
                        | Some data =>
                            [StDownloadButton
                               (inbox_tray ++ lit " Download Travel Plan") data
                               (file_name w city) (lit "text/plain")]
                        | None => [error_line w UnicodeEncodeError]
                        end
                 end
             | _ => [error_line w AttributeError]
             end
      end
  end.

(** The loop writes after what is already on the page. *)
Lemma write_day_log entry (log : list ui) :
  write_day entry log
  = (fst (write_day entry []), log ++ snd (write_day entry [])).
Proof.
  destruct entry as [i piece]. unfold write_day.
  destruct (encode_utf8 _); reflexivity.
Qed.

Lemma write_days_log entries (log : list ui) :
  for_each entries tt (fun entry _ => write_day entry) log
  = (fst (for_each entries tt (fun entry _ => write_day entry) []),
     log ++ snd (for_each entries tt (fun entry _ => write_day entry) [])).
Proof.
  revert log. induction entries as [|entry entries IH]; intros log.
  - cbn. unfold ret. now rewrite app_nil_r.
  - cbn [for_each]. unfold bind.
    rewrite (write_day_log entry log), (write_day_log entry []).
    destruct (write_day entry []) as [[[]|e] shown]; cbn [fst snd app].
    + rewrite (IH (log ++ shown)), (IH shown). cbn [fst snd].
      now rewrite app_assoc.
    + reflexivity.
Qed.

Lemma generate_filled w city duration interests time_of_year :
  truthy city = true -> truthy interests = true -> truthy time_of_year = true ->
  run (generate w city duration interests time_of_year)
  = (Return tt,
     [StSpinner (brain ++ lit " Planning your personalized trip...");
      AgentInvoke agent_executor
        (PDict [(lit "input",
                 PStr (user_query w city duration interests time_of_year))])]
     ++ after_agent w city
          (agent_answer w agent_executor
             (PDict [(lit "input",
                      PStr (user_query w city duration interests time_of_year))]))).
Proof.
  intros Hc Hi Ht. unfold generate. rewrite Hc, Hi, Ht. cbn [negb orb].
  unfold run at 1, try_except, bind at 1, emit at 1, agent_invoke.
  unfold bind at 1. cbn beta iota. unfold after_agent, error_line.
  destruct (agent_answer w agent_executor _) as [response|e]; [|reflexivity].
  unfold bind at 1, lift at 1.
  destruct (getitem_str response (lit "output")) as [output|e]; [|reflexivity].
  unfold bind at 1, emit at 1. cbn beta iota.
  unfold bind at 1, lift at 1.
  destruct output as [| | | |plan_text| |]; cbn [as_text]; try reflexivity.
  unfold bind at 1, show_days, run. rewrite write_days_log.
  destruct (for_each _ tt _ []) as [[[]|e] shown]; cbn [fst snd].
  - unfold bind at 1, lift at 1, encode.
    destruct (encode_utf8 (file_text w city plan_text)) as [data|];
      unfold emit; cbn [app]; rewrite <- ?app_assoc; reflexivity.
  - unfold emit. cbn [app]. rewrite <- ?app_assoc. reflexivity.
Qed.

(** C9, as the code has it. When the agent returns a final text and
    neither the city nor the text holds a character that UTF-8 refuses, the
    page shows the pieces of the text that follow its day markers (the
    text is its marker-free pieces joined by the marker, and the first
    piece is never shown) and then offers one download: as
    [text/plain], under the name of the city followed by
    "_travel_plan.txt", bytes that read back as the title line
    "AI Travel Plan for <city>", a blank line and the whole final text,
    unchanged. *)
Theorem download_is_title_and_final_text
    w city duration interests time_of_year response plan_text :
  truthy city = true -> truthy interests = true -> truthy time_of_year = true ->
  agent_answer w agent_executor
    (PDict [(lit "input",
             PStr (user_query w city duration interests time_of_year))])
  = Return response ->
  getitem_str response (lit "output") = Return (PStr plan_text) ->
  encodable (py_str w city ++ plan_text) = true ->
  exists data preamble pieces,
    encode_utf8 (lit "AI Travel Plan for " ++ py_str w city ++ [10%N; 10%N]
                 ++ plan_text) = Some data /\
    decode_utf8 data
    = Some (lit "AI Travel Plan for " ++ py_str w city ++ [10%N; 10%N]
            ++ plan_text) /\
    join day_marker (preamble :: pieces) = plan_text /\
    Forall (fun piece => occurrences day_marker piece = 0) (preamble :: pieces) /\
    run (generate w city duration interests time_of_year)
    = (Return tt,
       [StSpinner (brain ++ lit " Planning your personalized trip...");
        AgentInvoke agent_executor
          (PDict [(lit "input",
                   PStr (user_query w city duration interests time_of_year))]);
        StSuccess (check_mark ++ lit " Here's your travel plan:")]
       ++ map show_day (enumerate pieces 1)
       ++ [StDownloadButton (inbox_tray ++ lit " Download Travel Plan") data
             (py_str w city ++ lit "_travel_plan.txt") (lit "text/plain")]).
Proof.
  intros Hc Hi Ht Hagent Hout Henc.
  rewrite encodable_app in Henc. apply andb_prop in Henc as [Hcity Hplan].
  assert (encodable (file_text w city plan_text) = true) as Hfile.
  { unfold file_text, newline.
    now rewrite !encodable_app, encodable_lit, Hcity, Hplan. }
  apply encodable_encodes in Hfile as [data Hdata].
  destruct (split_ne_cons 68%N (lit "ay ") plan_text) as (preamble & pieces & Hsplit).
  change (split_days plan_text = preamble :: pieces) in Hsplit.
  exists data, preamble, pieces. split; [exact Hdata|].
  split; [exact (decode_encode _ _ Hdata)|].
  split; [rewrite <- Hsplit; apply join_split|].
  split; [rewrite <- Hsplit; apply split_days_spec|].
  rewrite generate_filled by assumption. rewrite Hagent.
  unfold after_agent. rewrite Hout, (show_days_encodable _ Hplan), Hdata.
  unfold file_name, shown_days. rewrite Hsplit. reflexivity.
Qed.

Lemma download_is_title_and_final_text_witness :
  exists data preamble pieces,
    encode_utf8 (lit "AI Travel Plan for "
                 ++ py_str kolhapur_world (PStr (lit "Kolhapur"))
                 ++ [10%N; 10%N] ++ three_day_plan) = Some data /\
    decode_utf8 data
    = Some (lit "AI Travel Plan for "
            ++ py_str kolhapur_world (PStr (lit "Kolhapur"))
            ++ [10%N; 10%N] ++ three_day_plan) /\
    join day_marker (preamble :: pieces) = three_day_plan /\
    Forall (fun piece => occurrences day_marker piece = 0) (preamble :: pieces) /\
    run (generate kolhapur_world (PStr (lit "Kolhapur")) (PInt 3)
           (PStr (lit "food, history")) (PStr (lit "August")))
    = (Return tt,
       [StSpinner (brain ++ lit " Planning your personalized trip...");
        AgentInvoke agent_executor
          (PDict [(lit "input",
                   PStr (user_query kolhapur_world (PStr (lit "Kolhapur"))
                           (PInt 3) (PStr (lit "food, history"))
                           (PStr (lit "August"))))]);
        StSuccess (check_mark ++ lit " Here's your travel plan:")]
       ++ map show_day (enumerate pieces 1)
       ++ [StDownloadButton (inbox_tray ++ lit " Download Travel Plan") data
             (py_str kolhapur_world (PStr (lit "Kolhapur"))
              ++ lit "_travel_plan.txt") (lit "text/plain")]).
Proof.
  apply (download_is_title_and_final_text kolhapur_world (PStr (lit "Kolhapur"))
           (PInt 3) (PStr (lit "food, history")) (PStr (lit "August"))
           kolhapur_reply three_day_plan); reflexivity.
Defined.

(** C9, as stated, fails on this run: the text in the file is not the
    final text (a title line and a blank line precede it), and what the
    page displays is neither of them (the words before the first marker
    are gone, and each marker is replaced by a numbered label). *)
Lemma download_differs_from_display :
  run (generate kolhapur_world (PStr (lit "Kolhapur")) (PInt 3)
         (PStr (lit "food, history")) (PStr (lit "August")))
  = (Return tt,
     [StSpinner (brain ++ lit " Planning your personalized trip...");
      AgentInvoke agent_executor
        (PDict [(lit "input",
                 PStr (user_query kolhapur_world (PStr (lit "Kolhapur"))
                         (PInt 3) (PStr (lit "food, history"))
                         (PStr (lit "August"))))]);
      StSuccess (check_mark ++ lit " Here's your travel plan:");
      StExpander (calendar ++ lit " Day 1") true (lit "**Day 1**: 1: fort");
      StExpander (calendar ++ lit " Day 2") true (lit "**Day 2**: 2: lake");
      StExpander (calendar ++ lit " Day 3") true (lit "**Day 3**: 3: market");
      StDownloadButton (inbox_tray ++ lit " Download Travel Plan")
        kolhapur_bytes (lit "Kolhapur_travel_plan.txt") (lit "text/plain")]) /\
  decode_utf8 kolhapur_bytes
  = Some (lit "AI Travel Plan for Kolhapur" ++ [10%N; 10%N] ++ three_day_plan) /\
  decode_utf8 kolhapur_bytes <> Some three_day_plan /\
  three_day_plan = lit "Welcome. Day 1: fort  Day 2: lake Day 3: market ".
Proof.
  split; [reflexivity|]. split; [reflexivity|]. split; [|reflexivity].
  intros H. vm_compute in H. discriminate.
Qed.




(** How many times a log calls the agent. *)
Definition agent_calls (log : list ui) : nat :=
  length (List.filter (fun ev => match ev with
                                 | AgentInvoke _ _ => true
                                 | _ => false
                                 end) log).

Lemma agent_calls_app log1 log2 :
  agent_calls (log1 ++ log2) = agent_calls log1 + agent_calls log2.
Proof. unfold agent_calls. now rewrite List.filter_app, length_app. Qed.

Lemma agent_calls_write_days entries :
  agent_calls (snd (for_each entries tt (fun entry _ => write_day entry) [])) = 0.
Proof.
  induction entries as [|[i piece] entries IH]; [reflexivity|].
  cbn [for_each]. unfold bind. unfold write_day at 1.
  destruct (encode_utf8 _); cbn; [|reflexivity].
  rewrite write_days_log. cbn [snd]. rewrite agent_calls_app, IH. reflexivity.
Qed.

Lemma agent_calls_after_agent w city answer :
  agent_calls (after_agent w city answer) = 0.
Proof.
  unfold after_agent. destruct answer as [response|e]; [|reflexivity].
  destruct (getitem_str response (lit "output")) as [output|e]; [|reflexivity].
  change (agent_calls (StSuccess ?b :: ?l)) with (agent_calls l).
  destruct output as [| | | |plan_text| |]; try reflexivity.
  pose proof (agent_calls_write_days (enumerate (tl (split_days plan_text)) 1))
    as Hloop.
  unfold run, show_days.
  destruct (for_each _ tt _ []) as [[[]|e] shown]; cbn [snd] in Hloop;
    rewrite agent_calls_app, Hloop; [|reflexivity].
  now destruct (encode_utf8 _).
Qed.

(** X15. One press of the button calls the agent exactly once when city,
    interests and time of year are all non-empty, and not at all when one
    of them is empty; the duration plays no part in that decision. *)
Theorem agent_called_once_iff_fields_filled
    w city duration interests time_of_year :
  agent_calls (snd (run (generate w city duration interests time_of_year)))
  = if truthy city && truthy interests && truthy time_of_year then 1 else 0.
Proof.
  destruct (truthy city && truthy interests && truthy time_of_year) eqn:E.
  - apply andb_prop in E as [E Ht]. apply andb_prop in E as [Hc Hi].
    rewrite generate_filled by assumption. cbn [snd].
    rewrite agent_calls_app, agent_calls_after_agent. reflexivity.
  - now rewrite generate_requires_fields.
Qed.

(** X17. The success line is written before the sections: when a section
    holds a character that UTF-8 refuses (a lone surrogate), the page keeps
    the success line and the sections before that one, opens the expander
    of the refused section without anything in it, shows one error line,
    and offers no later section and no download. *)
Theorem refused_section_stops_the_page
    w city duration interests time_of_year response plan_text good bad rest :
  truthy city = true -> truthy interests = true -> truthy time_of_year = true ->
  agent_answer w agent_executor
    (PDict [(lit "input",
             PStr (user_query w city duration interests time_of_year))])
  = Return response ->
  getitem_str response (lit "output") = Return (PStr plan_text) ->
  tl (split_days plan_text) = good ++ bad :: rest ->
  forallb (fun piece => encodable (strip piece)) good = true ->
  encodable (strip bad) = false ->
  run (generate w city duration interests time_of_year)
  = (Return tt,
     [StSpinner (brain ++ lit " Planning your personalized trip...");
      AgentInvoke agent_executor
        (PDict [(lit "input",
                 PStr (user_query w city duration interests time_of_year))]);
      StSuccess (check_mark ++ lit " Here's your travel plan:")]
     ++ map show_day (enumerate good 1)
     ++ [StExpanderOpened
           (calendar ++ lit " Day " ++ str_of_Z (1 + Z.of_nat (length good)))
           true;
         StError (cross_mark ++ lit " Something went wrong: "
                  ++ str_of_exn w UnicodeEncodeError)]).
Proof.
  intros Hc Hi Ht Hagent Hout Hpieces Hgood Hbad.
  rewrite generate_filled by assumption. rewrite Hagent.
  unfold after_agent. rewrite Hout. unfold run, show_days. rewrite Hpieces.
  rewrite (write_days_until good bad rest 1 []);
    [| apply List.Forall_forall; intros piece Hin;
       rewrite forallb_forall in Hgood; now apply Hgood
     | exact Hbad].
  unfold error_line. cbn [app]. rewrite <- !app_assoc. reflexivity.
Qed.

Definition broken_plan : pystr := three_day_plan ++ [55296%N].

Definition broken_reply : pyval := PDict [(lit "output", PStr broken_plan)].

Lemma refused_section_stops_the_page_witness :
  run (generate (answering no_results PNone broken_reply) (PStr (lit "Kolhapur"))
         (PInt 3) (PStr (lit "food")) (PStr (lit "August")))
  = (Return tt,
     [StSpinner (brain ++ lit " Planning your personalized trip...");
      AgentInvoke agent_executor
        (PDict [(lit "input",
                 PStr (user_query (answering no_results PNone broken_reply)
                         (PStr (lit "Kolhapur")) (PInt 3) (PStr (lit "food"))
                         (PStr (lit "August"))))]);
      StSuccess (check_mark ++ lit " Here's your travel plan:")]
     ++ map show_day (enumerate [lit "1: fort  "; lit "2: lake "] 1)
     ++ [StExpanderOpened
           (calendar ++ lit " Day "
            ++ str_of_Z (1 + Z.of_nat (length [lit "1: fort  "; lit "2: lake "])))
           true;
         StError (cross_mark ++ lit " Something went wrong: "
                  ++ str_of_exn (answering no_results PNone broken_reply)
                       UnicodeEncodeError)]).
Proof.
  apply (refused_section_stops_the_page (answering no_results PNone broken_reply)
           (PStr (lit "Kolhapur")) (PInt 3) (PStr (lit "food"))
           (PStr (lit "August")) broken_reply broken_plan
           [lit "1: fort  "; lit "2: lake "]
           (lit "3: market " ++ [55296%N]) []); reflexivity.
Defined.

(** X21. Pressing the button right after a reset only shows the warning
    "Please fill in all required fields.": the cleared fields are read
    back empty and nothing is sent to the agent. *)
Theorem reset_then_submit_warns w (st : session_state) :
  run (script w (clear_inputs st) true)
  = (Return tt, [StWarning (lit "Please fill in all required fields.")]).
Proof.
  unfold script, run, bind, lift, getattr.
  rewrite !init_session_state_lookup, !clear_inputs_lookup. cbn.
  reflexivity.
Qed.


End PageFacts.
